(** * The OFAC party tools of [ofac_mcp_sse.py]: embedding and verification

    The module exposes two tool functions, [get_ofac_party_info] and
    [search_party].  Each builds one HTTP GET request, sends it through an
    [httpx] client and folds whatever comes back into a dictionary
    [{"status": "success", "data": ...}] or
    [{"status": "error", "message": ...}].

    The embedding is dynamic, like the source: arguments, JSON documents and
    returned dictionaries are values of one type [pyval]; the builtins the
    source calls ([or], [str.strip], [str.lower], [int], [len], [dict.get])
    are total functions that either return or raise.  The HTTP client is a
    function of the world that answers a request with a response, a
    transport failure or any other exception; every request handed to it is
    recorded, so that "no network call" and "exactly one call" are
    statements about the record.

    Conventions of the model:
    - a Python [str] is a [string] whose characters are the code points
      0..255; [strip] and [lower] follow the Unicode tables on that range;
    - [int] is [Z]; [str] of an [int] is its decimal rendering (the
      interpreter's configurable cap on the digits of such a conversion is
      not modelled);
    - [float] is the binary64 type of the kernel;
    - opening and closing the [httpx.AsyncClient] is taken to succeed, and
      logging has no effect on results. *)

From Stdlib Require Import ZArith String Ascii Floats Lia.
From stdpp Require Import gmap strings list fin_maps pretty.

Local Open Scope string_scope.
Local Open Scope Z_scope.

(** ** Python values and the builtins used by the source *)

Module Py.

#[warnings="-register-all"]
Inductive pyval : Type :=
| PNone
| PBool (b : bool)
| PInt (n : Z)
| PFloat (x : float)
| PStr (s : string)
| PList (l : list pyval)
| PDict (d : gmap string pyval).

(** A computation that returns a value or raises. *)
Inductive outcome (E A : Type) : Type :=
| Return (a : A)
| Raise (e : E).
Arguments Return {E A} a.
Arguments Raise {E A} e.

(** Exceptions raised by builtins outside any handler are identified by
    their class; their text depends on the interpreter version and is never
    read by the source. *)
Inductive exn_class : Type :=
| AttributeError
| TypeError
| ValueError
| OverflowError.

(** [type(v).__name__] *)
Definition type_name (v : pyval) : string :=
  match v with
  | PNone => "NoneType"
  | PBool _ => "bool"
  | PInt _ => "int"
  | PFloat _ => "float"
  | PStr _ => "str"
  | PList _ => "list"
  | PDict _ => "dict"
  end.

(** Truth value testing: [None], [False], zero, and empty containers are
    false. *)
Definition truthy (v : pyval) : bool :=
  match v with
  | PNone => false
  | PBool b => b
  | PInt n => negb (Z.eqb n 0)
  | PFloat x => negb (PrimFloat.eqb x 0%float)
  | PStr s => negb (String.eqb s "")
  | PList l => match l with [] => false | _ => true end
  | PDict d => negb (bool_decide (d = ∅))
  end.

(** [x or y] *)
Definition py_or (x y : pyval) : pyval := if truthy x then x else y.

(** [v is True] *)
Definition is_True (v : pyval) : bool :=
  match v with
  | PBool true => true
  | _ => false
  end.

(** *** Strings *)

Definition code (c : ascii) : N := N_of_ascii c.

(** [c.isspace()] on code points below 256. *)
Definition isspace (c : ascii) : bool :=
  let n := code c in
  ((9 <=? n) && (n <=? 13) || (28 <=? n) && (n <=? 32)
   || (n =? 133) || (n =? 160))%N.

(** [c.lower()] on code points below 256: A-Z, and the capitals
    U+00C0..U+00DE except the multiplication sign U+00D7. *)
Definition lower_char (c : ascii) : ascii :=
  let n := code c in
  if ((65 <=? n) && (n <=? 90)
      || (192 <=? n) && (n <=? 222) && negb (n =? 215))%N
  then ascii_of_N (n + 32)
  else c.

Fixpoint lower (s : string) : string :=
  match s with
  | "" => ""
  | String c s' => String (lower_char c) (lower s')
  end.

Fixpoint lstrip (s : string) : string :=
  match s with
  | "" => ""
  | String c s' => if isspace c then lstrip s' else s
  end.

(** [rstrip] keeps a character when it is not a space or when something
    is left after it. *)
Fixpoint rstrip (s : string) : string :=
  match s with
  | "" => ""
  | String c s' =>
      match rstrip s' with
      | "" => if isspace c then "" else String c ""
      | t => String c t
      end
  end.

Definition strip (s : string) : string := rstrip (lstrip s).

(** [s[:n]] *)
Definition slice_to (n : nat) (s : string) : string := substring 0 n s.

(** [sep.join(parts)] *)
Definition join (sep : string) (parts : list string) : string :=
  String.concat sep parts.

(** [str(n)] for an [int]. *)
Definition str_int (n : Z) : string := pretty n.

(** [s.strip()]: only [str] has the method here. *)
Definition py_strip (v : pyval) : outcome exn_class string :=
  match v with
  | PStr s => Return (strip s)
  | _ => Raise AttributeError
  end.

(** [s.lower()] *)
Definition py_lower (v : pyval) : outcome exn_class string :=
  match v with
  | PStr s => Return (lower s)
  | _ => Raise AttributeError
  end.

(** *** [int(v)] *)

Definition isdecimal (c : ascii) : bool :=
  let n := code c in ((48 <=? n) && (n <=? 57))%N.

Definition digit (c : ascii) : Z := Z.of_N (code c) - 48.

(** The rest of a decimal literal after a digit: digits, each optionally
    preceded by one underscore. *)
Fixpoint int_digits (acc : Z) (s : string) : option Z :=
  match s with
  | "" => Some acc
  | String c s' =>
      if isdecimal c then int_digits (10 * acc + digit c) s'
      else if Ascii.eqb c "_" then
        match s' with
        | String d s'' =>
            if isdecimal d then int_digits (10 * acc + digit d) s'' else None
        | "" => None
        end
      else None
  end.

Definition int_literal (s : string) : option Z :=
  match s with
  | String c s' => if isdecimal c then int_digits (digit c) s' else None
  | "" => None
  end.

(** The white space [int] skips around a literal: the white space of C
    (tab to carriage return, and the blank) and the two other space
    characters below 256, U+0085 and U+00A0.  The separators
    U+001C..U+001F, which [strip] removes, are not skipped. *)
Definition isspace_int (c : ascii) : bool :=
  let n := code c in
  ((9 <=? n) && (n <=? 13) || (n =? 32) || (n =? 133) || (n =? 160))%N.

Fixpoint skip_left (s : string) : string :=
  match s with
  | "" => ""
  | String c s' => if isspace_int c then skip_left s' else s
  end.

Fixpoint skip_right (s : string) : string :=
  match s with
  | "" => ""
  | String c s' =>
      match skip_right s' with
      | "" => if isspace_int c then "" else String c ""
      | t => String c t
      end
  end.

(** [int(s)] in base 10: surrounding white space, an optional sign, then
    the literal. *)
Definition int_of_str (s : string) : option Z :=
  match skip_right (skip_left s) with
  | String "+" t => int_literal t
  | String "-" t => Z.opp <$> int_literal t
  | t => int_literal t
  end.

(** [int(x)] for a float: truncation toward zero; NaN and the infinities
    raise. *)
Definition int_of_float (x : float) : outcome exn_class Z :=
  match Prim2SF x with
  | S754_nan => Raise ValueError
  | S754_infinity _ => Raise OverflowError
  | S754_zero _ => Return 0
  | S754_finite neg m e =>
      let mag := Z.shiftl (Z.pos m) e in
      Return (if neg then - mag else mag)
  end.

Definition py_int (v : pyval) : outcome exn_class Z :=
  match v with
  | PInt n => Return n
  | PBool b => Return (if b then 1 else 0)
  | PFloat x => int_of_float x
  | PStr s =>
      match int_of_str s with
      | Some n => Return n
      | None => Raise ValueError
      end
  | PNone | PList _ | PDict _ => Raise TypeError
  end.

End Py.

(** ** The HTTP client, as far as the source uses it *)

Module Httpx.
Import Py.

(** What [client.get(url, params=..., timeout=...)] sends. *)
Record request : Type := Request {
  method : string;
  url : string;
  params : gmap string pyval;
  timeout : float
}.

(** An [httpx.Response]: [r.status_code], [r.text] and what [r.json()]
    does, which is to return the decoded document or to raise; the text of
    the exception stands for it. *)
Record Response : Type := mkResponse {
  status_code : Z;
  text : string;
  json : outcome string pyval
}.

(** The exceptions the [try] blocks see: the two [httpx] classes the source
    names, and any other [Exception], known by [str(e)]. *)
Inductive exn : Type :=
| HTTPStatusError (response : Response)
| RequestError (str_e : string)
| Exception (str_e : string).

(** [httpx.codes.is_success] *)
Definition is_success (status : Z) : bool :=
  (200 <=? status) && (status <=? 299).

(** [r.raise_for_status()] *)
Definition raise_for_status (r : Response) : outcome exn Response :=
  if is_success (status_code r) then Return r else Raise (HTTPStatusError r).

(** [r.json()] seen from inside a [try] block. *)
Definition call_json (r : Response) : outcome exn pyval :=
  match json r with
  | Return v => Return v
  | Raise s => Raise (Exception s)
  end.

(** [j.get(key, dflt)]: a method of [dict] only. *)
Definition py_get (j : pyval) (key : string) (dflt : pyval) : outcome exn pyval :=
  match j with
  | PDict d => Return (default dflt (d !! key))
  | _ => Raise (Exception ("'" ++ type_name j ++ "' object has no attribute 'get'"))
  end.

(** [len(v)] *)
Definition py_len (v : pyval) : outcome exn Z :=
  match v with
  | PStr s => Return (Z.of_nat (String.length s))
  | PList l => Return (Z.of_nat (length l))
  | PDict d => Return (Z.of_nat (size d))
  | _ => Raise (Exception ("object of type '" ++ type_name v ++ "' has no len()"))
  end.

(** The surroundings of a call: the process environment, the order in
    which this process iterates over the set [ALLOWED_SCOPES] (string
    hashing is seeded per process), and the remote side, which answers a
    request with a response or makes [client.get] raise. *)
Record world : Type := World {
  environ : gmap string string;
  set_iter : list string;
  http_get : request -> outcome exn Response
}.

(** Computations that read the world, may raise [E], and record the
    requests they send. *)
Definition io (E A : Type) : Type := world -> outcome E A * list request.

Definition ret {E A} (a : A) : io E A := fun _ => (Return a, []).

Definition bind {E A B} (m : io E A) (k : A -> io E B) : io E B :=
  fun w =>
    match m w with
    | (Return a, sent) => let (r, sent') := k a w in (r, (sent ++ sent')%list)
    | (Raise e, sent) => (Raise e, sent)
    end.

Definition lift {E A} (o : outcome E A) : io E A := fun _ => (o, []).

Definition asks {E A} (f : world -> A) : io E A := fun w => (Return (f w), []).

(** [try: body  except ... as e: handler e] *)
Definition try_except {E E' A} (body : io E A) (handler : E -> io E' A) : io E' A :=
  fun w =>
    match body w with
    | (Return a, sent) => (Return a, sent)
    | (Raise e, sent) => let (r, sent') := handler e w in (r, (sent ++ sent')%list)
    end.

(** [await client.get(url, params=params, timeout=timeout)] *)
Definition client_get (url : string) (params : gmap string pyval) (timeout : float)
  : io exn Response :=
  fun w =>
    let req := Request "GET" url params timeout in
    (http_get w req, [req]).

End Httpx.

Notation "x <- m ;; k" := (Httpx.bind m (fun x => k))
  (at level 20, m at level 99, k at level 200, only parsing).

(** ** The module [ofac_mcp_sse] *)

Import Py Httpx.

(** [os.getenv(key, dflt)] *)
Definition getenv (key dflt : string) (w : world) : string :=
  default dflt (environ w !! key).

Definition DEFAULT_BASE : string := "https://hello-render-rbg8.onrender.com/ofacParty".
Definition API_ENDPOINT : world -> string := getenv "API_ENDPOINT" DEFAULT_BASE.
Definition SEARCH_ENDPOINT : world -> string :=
  getenv "SEARCH_ENDPOINT" (DEFAULT_BASE ++ "/search").

Definition ALLOWED_SCOPES : gset string := {[ "all"; "name"; "alias"; "address" ]}.

Definition _extract_error_message (resp : Response) : pyval :=
  let fallback :=
    PStr (slice_to 300
            ("API Error: " ++ str_int (status_code resp) ++ " - " ++ text resp)) in
  match call_json resp with
  | Return data =>
      match py_get data "message" (PStr ("API Error: " ++ str_int (status_code resp))) with
      | Return m => m
      | Raise _ => fallback
      end
  | Raise _ => fallback
  end.

Definition get_ofac_party_info (party_id : Z) : io exn_class pyval :=
  let params : gmap string pyval := {[ "partyId" := PStr (str_int party_id) ]} in
  try_except
    (endpoint <- asks API_ENDPOINT ;;
     r <- client_get endpoint params 10%float ;;
     _checked <- lift (raise_for_status r) ;;
     j <- lift (call_json r) ;;
     rc <- lift (py_get j "resultCd" PNone) ;;
     if is_True rc then
       data <- lift (py_get j "data" (PDict ∅)) ;;
       ret (PDict {[ "status" := PStr "success"; "data" := data ]})
     else
       msg <- lift (py_get j "message" (PStr "API returned error")) ;;
       ret (PDict {[ "status" := PStr "error"; "message" := msg ]}))
    (fun e =>
       match e with
       | HTTPStatusError response =>
           let msg := _extract_error_message response in
           ret (PDict {[ "status" := PStr "error"; "message" := msg ]})
       | RequestError str_e =>
           ret (PDict {[ "status" := PStr "error"; "message" := PStr str_e ]})
       | Exception str_e =>
           ret (PDict {[ "status" := PStr "error"; "message" := PStr str_e ]})
       end).

Definition search_party (q scope country city limit fuzzy : pyval) : io exn_class pyval :=
  q <- lift (py_strip (py_or q (PStr ""))) ;;
  if (String.length q <? 2)%nat then
    ret (PDict {[ "status" := PStr "error";
                  "message" := PStr "q must be at least 2 characters" ]})
  else
  scope <- lift (py_lower (py_or scope (PStr "all"))) ;;
  if negb (bool_decide (scope ∈ ALLOWED_SCOPES)) then
    names <- asks set_iter ;;
    ret (PDict {[ "status" := PStr "error";
                  "message" := PStr ("scope must be one of " ++ join ", " names) ]})
  else
  n <- lift (py_int (py_or limit (PInt 100))) ;;
  let limit := Z.max 1 (Z.min n 1000) in
  let params : gmap string pyval :=
    {[ "q" := PStr q; "scope" := PStr scope; "limit" := PStr (str_int limit) ]} in
  let params := if truthy country then <["country" := country]> params else params in
  let params := if truthy city then <["city" := city]> params else params in
  let params := if truthy fuzzy then <["fuzzy" := PStr "true"]> params else params in
  try_except
    (endpoint <- asks SEARCH_ENDPOINT ;;
     r <- client_get endpoint params 10%float ;;
     _checked <- lift (raise_for_status r) ;;
     j <- lift (call_json r) ;;
     rc <- lift (py_get j "resultCd" PNone) ;;
     if is_True rc then
       data <- lift (py_get j "data" (PList [])) ;;
       _hits <- lift (py_len data) ;;
       ret (PDict {[ "status" := PStr "success"; "data" := data ]})
     else
       msg <- lift (py_get j "message" (PStr "API returned error")) ;;
       ret (PDict {[ "status" := PStr "error"; "message" := msg ]}))
    (fun e =>
       match e with
       | HTTPStatusError response =>
           let msg := _extract_error_message response in
           ret (PDict {[ "status" := PStr "error"; "message" := msg ]})
       | RequestError str_e =>
           ret (PDict {[ "status" := PStr "error"; "message" := PStr str_e ]})
       | Exception str_e =>
           ret (PDict {[ "status" := PStr "error"; "message" := PStr str_e ]})
       end).

(** Values of the parameters a caller leaves out. *)
Definition default_scope : pyval := PStr "all".
Definition default_country : pyval := PNone.
Definition default_city : pyval := PNone.
Definition default_limit : pyval := PInt 100.
Definition default_fuzzy : pyval := PBool false.

(** ** Vocabulary of the statements *)

(** The two dictionaries the tools return. *)
Definition success (data : pyval) : pyval :=
  PDict {[ "status" := PStr "success"; "data" := data ]}.
Definition error (message : pyval) : pyval :=
  PDict {[ "status" := PStr "error"; "message" := message ]}.

Inductive Outcome : pyval -> Prop :=
| Outcome_success data : Outcome (success data)
| Outcome_error message : Outcome (error message).

(** What a call returns or raises, and the requests it sent, in order. *)
Definition result {E A} (op : io E A) (w : world) : outcome E A := fst (op w).
Definition sent {E A} (op : io E A) (w : world) : list request := snd (op w).

(** The call sent one request and the remote side answered it with
    [reply]. *)
Definition answers {E A} (w : world) (op : io E A) (reply : outcome exn Response) : Prop :=
  ∃ req, sent op w = [req] ∧ http_get w req = reply.

(** Arguments that respect the annotations of [search_party]: [str] or
    [None] for the text parameters, [int] (hence also [bool]) or [None] for
    [limit]. *)
Definition is_str_or_none (v : pyval) : bool :=
  match v with
  | PNone | PStr _ => true
  | _ => false
  end.

Definition is_int_or_none (v : pyval) : bool :=
  match v with
  | PNone | PInt _ | PBool _ => true
  | _ => false
  end.

(** Iterating over [ALLOWED_SCOPES] visits each of its members once. *)
Definition iterates_set (w : world) : Prop :=
  NoDup (set_iter w) ∧ ∀ s, s ∈ set_iter w ↔ s ∈ ALLOWED_SCOPES.

(** Worlds to run the tools in: no environment overrides, and a remote
    side that gives every request the same answer. *)
Definition world_of (reply : outcome exn Response) : world :=
  World ∅ ["name"; "address"; "all"; "alias"] (fun _ => reply).

Definition ok_json (status : Z) (doc : pyval) : outcome exn Response :=
  Return (mkResponse status "" (Return doc)).

Definition not_json (status : Z) (body : string) : outcome exn Response :=
  Return (mkResponse status body (Raise "Expecting value: line 1 column 1 (char 0)")).

Definition refused : outcome exn Response :=
  Raise (RequestError "All connection attempts failed").

(** The request of a lookup, and the request of a search whose arguments
    passed the checks as [q], [scope] and [limit]. *)
Definition lookup_request (w : world) (party_id : Z) : request :=
  Request "GET" (API_ENDPOINT w) {[ "partyId" := PStr (str_int party_id) ]} 10%float.

Definition search_params (q scope : string) (limit : Z) (country city fuzzy : pyval)
  : gmap string pyval :=
  let base : gmap string pyval :=
    {[ "q" := PStr q; "scope" := PStr scope; "limit" := PStr (str_int limit) ]} in
  let with_country := if truthy country then <["country" := country]> base else base in
  let with_city := if truthy city then <["city" := city]> with_country else with_country in
  if truthy fuzzy then <["fuzzy" := PStr "true"]> with_city else with_city.

Definition search_request (w : world) (q scope : string) (limit : Z)
    (country city fuzzy : pyval) : request :=
  Request "GET" (SEARCH_ENDPOINT w) (search_params q scope limit country city fuzzy) 10%float.

(** The checks of [search_party] let the arguments through, as the query
    text [q'], the scope [scope'] and the integer [n] that is then clamped. *)
Definition accepts (q scope limit : pyval) (q' scope' : string) (n : Z) : Prop :=
  py_strip (py_or q (PStr "")) = Return q' ∧
  (String.length q' <? 2)%nat = false ∧
  py_lower (py_or scope (PStr "all")) = Return scope' ∧
  scope' ∈ ALLOWED_SCOPES ∧
  py_int (py_or limit (PInt 100)) = Return n.

(** [max(1, min(n, 1000))] *)
Definition clamp (n : Z) : Z := Z.max 1 (Z.min n 1000).

(** A call of either tool, and a call whose arguments have the annotated
    types. *)
Inductive tool_call : io exn_class pyval -> Prop :=
| call_lookup party_id : tool_call (get_ofac_party_info party_id)
| call_search q scope country city limit fuzzy :
    tool_call (search_party q scope country city limit fuzzy).

Inductive typed_call : io exn_class pyval -> Prop :=
| typed_lookup party_id : typed_call (get_ofac_party_info party_id)
| typed_search q scope country city limit fuzzy :
    is_str_or_none q = true ->
    is_str_or_none scope = true ->
    is_int_or_none limit = true ->
    typed_call (search_party q scope country city limit fuzzy).

(** The body [{"message":"db down"}], written without a quote character in
    a literal. *)
Definition dq : string := String (ascii_of_nat 34) "".
Definition db_down_body : string :=
  "{" ++ dq ++ "message" ++ dq ++ ":" ++ dq ++ "db down" ++ dq ++ "}".
Definition db_down : outcome exn Response :=
  Return (mkResponse 500 db_down_body (Return (PDict {[ "message" := PStr "db down" ]}))).

(** ** The rest of the module's configuration, and further vocabulary *)

(** The third endpoint the module reads from the environment; it is handed
    to the server object, the tools do not use it. *)
Definition SSE_ENDPOINT : world -> string := getenv "SSE_ENDPOINT" (DEFAULT_BASE ++ "/sse").

(** The world in which the environment variable [key] is set to [value]
    before the module is loaded. *)
Definition set_env (key value : string) (w : world) : world :=
  World (<[key := value]> (environ w)) (set_iter w) (http_get w).

(** The values [len] accepts, and the values that have [get]. *)
Definition sized (v : pyval) : bool :=
  match v with
  | PStr _ | PList _ | PDict _ => true
  | _ => false
  end.

Definition is_dict (v : pyval) : bool :=
  match v with
  | PDict _ => true
  | _ => false
  end.

(** The message the tools make of an exception of the client call. *)
Definition failure_message (e : exn) : pyval :=
  match e with
  | HTTPStatusError response => _extract_error_message response
  | RequestError str_e | Exception str_e => PStr str_e
  end.

(** A body of 400 characters. *)
Definition long_body : string := String.concat "" (replicate 40 "0123456789").

(** * Verification *)

(** ** Tactics *)

Ltac decide_by_computing :=
  apply (bool_decide_unpack _); vm_compute; exact I.

Ltac run_io :=
  unfold result, sent, try_except, bind, lift, ret, asks, client_get in *; cbn in *.

(** ** Builtins *)

Lemma slice_to_length n s : (String.length (slice_to n s) <= n)%nat.
Proof.
  unfold slice_to. revert s.
  induction n as [|n IH]; intros [|c s]; cbn; try lia.
  specialize (IH s). lia.
Qed.

(** [s[:n]] is the prefix of [s] of [min(n, len(s))] characters. *)
Lemma slice_to_spec n s :
  (∃ rest, s = slice_to n s ++ rest) ∧
  String.length (slice_to n s) = Nat.min n (String.length s) ∧
  ((String.length s <= n)%nat -> slice_to n s = s).
Proof.
  unfold slice_to. revert s.
  induction n as [|n IH]; intros [|c s]; cbn.
  - split; [by exists "" | by split].
  - split; [by exists (String c s) | split; [done | lia]].
  - split; [by exists "" | by split].
  - destruct (IH s) as ([rest Hrest] & Hlen & Hshort). split; [|split].
    + exists rest. change (String c s = String c (substring 0 n s ++ rest)). by f_equal.
    + by rewrite Hlen.
    + intros Hle. rewrite Hshort; [done | lia].
Qed.

Lemma clamp_range n : 1 <= clamp n <= 1000.
Proof. unfold clamp. lia. Qed.

Lemma is_True_spec v : is_True v = true <-> v = PBool true.
Proof. destruct v as [|[]| | | | |]; cbn; split; congruence. Qed.

(** Sample runs of the builtins. *)
Example strip_sample :
  strip (String (ascii_of_nat 9) "  a b " ++ String (ascii_of_nat 160) "") = "a b".
Proof. reflexivity. Qed.

Example lower_sample : lower "ALL Name" = "all name".
Proof. reflexivity. Qed.

Example str_int_sample : str_int 0 = "0" ∧ str_int 1000 = "1000" ∧ str_int (-12) = "-12".
Proof. repeat split. Qed.

Example int_of_str_sample :
  int_of_str " +1_000 " = Some 1000 ∧ int_of_str "-5" = Some (-5) ∧
  int_of_str "007" = Some 7 ∧ int_of_str "abc" = None ∧ int_of_str "" = None ∧
  int_of_str "1__0" = None ∧ int_of_str "5_" = None ∧ int_of_str "- 5" = None.
Proof. repeat split. Qed.

Example int_of_str_space_sample :
  int_of_str (String (ascii_of_nat 160) "5" ++ String (ascii_of_nat 11) "") = Some 5 ∧
  int_of_str (String (ascii_of_nat 28) "5") = None ∧
  strip (String (ascii_of_nat 28) "5") = "5".
Proof. repeat split. Qed.

Example int_of_float_sample :
  int_of_float 2.5%float = Return 2 ∧ int_of_float (-2.5)%float = Return (-2) ∧
  int_of_float nan = Raise ValueError ∧ int_of_float infinity = Raise OverflowError.
Proof. repeat split. Qed.

Example truthy_sample :
  truthy (PInt 0) = false ∧ truthy (PStr "") = false ∧ truthy (PFloat (-0)%float) = false ∧
  truthy (PStr "false") = true ∧ truthy (PDict ∅) = false ∧ truthy (PList [PNone]) = true.
Proof. repeat split. Qed.

(** ** [str] of an integer reads back with [int] *)

Lemma digit_char d :
  (d < 10)%N ->
  isdecimal (pretty_N_char d) = true ∧ digit (pretty_N_char d) = Z.of_N d ∧
  isspace_int (pretty_N_char d) = false.
Proof.
  intros Hd.
  assert (d = 0 ∨ d = 1 ∨ d = 2 ∨ d = 3 ∨ d = 4 ∨ d = 5 ∨ d = 6 ∨ d = 7 ∨ d = 8 ∨ d = 9)%N
    as Hcases by lia.
  repeat destruct Hcases as [-> | Hcases]; try subst d; by vm_compute.
Qed.

Lemma int_digits_go x : ∀ s, int_digits 0 (pretty_N_go x s) = int_digits (Z.of_N x) s.
Proof.
  induction (N.lt_wf_0 x) as [x _ IH]. intros s.
  assert (x = 0 ∨ 0 < x)%N as [-> | Hx] by lia; [by rewrite pretty_N_go_0|].
  rewrite pretty_N_go_step by done.
  rewrite IH by (by apply N.div_lt).
  destruct (digit_char (x `mod` 10)) as (Hd & Hv & _); [by apply N.mod_lt|].
  cbn [int_digits]. rewrite Hd, Hv. f_equal.
  pose proof (N.div_mod x 10). lia.
Qed.

Lemma go_head x : ∀ s,
  (0 < x)%N -> ∃ c rest, pretty_N_go x s = String c rest ∧ isdecimal c = true.
Proof.
  induction (N.lt_wf_0 x) as [x _ IH]. intros s Hx.
  rewrite pretty_N_go_step by done.
  destruct (N.eq_0_gt_0_cases (x `div` 10)) as [-> | Hdiv].
  - rewrite pretty_N_go_0. eexists _, _. split; [done|].
    by apply digit_char, N.mod_lt.
  - apply IH; [by apply N.div_lt | done].
Qed.

Lemma skip_right_cons c t :
  t ≠ "" -> skip_right t = t -> skip_right (String c t) = String c t.
Proof. intros Hne Ht. cbn. rewrite Ht. by destruct t. Qed.

Lemma go_skip_right x : ∀ s,
  s ≠ "" -> skip_right s = s -> skip_right (pretty_N_go x s) = pretty_N_go x s.
Proof.
  induction (N.lt_wf_0 x) as [x _ IH]. intros s Hne Hs.
  assert (x = 0 ∨ 0 < x)%N as [-> | Hx] by lia; [by rewrite pretty_N_go_0|].
  rewrite pretty_N_go_step by done.
  apply IH; [by apply N.div_lt | done |].
  by apply skip_right_cons.
Qed.

Lemma go_skip_right_empty x : skip_right (pretty_N_go x "") = pretty_N_go x "".
Proof.
  assert (x = 0 ∨ 0 < x)%N as [-> | Hx] by lia; [done|].
  rewrite pretty_N_go_step by done.
  apply go_skip_right; [done|].
  cbn. destruct (digit_char (x `mod` 10)) as (_ & _ & ->); [by apply N.mod_lt | done].
Qed.

Lemma digit_not_sign c : isdecimal c = true ->
  isspace_int c = false ∧ Ascii.eqb c "+" = false ∧ Ascii.eqb c "-" = false.
Proof. destruct c as [[] [] [] [] [] [] [] []]; by vm_compute. Qed.

Lemma pretty_pos p :
  ∃ c rest, pretty (N.pos p) = String c rest ∧ isdecimal c = true ∧
    skip_right (String c rest) = String c rest ∧
    int_literal (String c rest) = Some (Z.pos p).
Proof.
  unfold pretty, pretty_N. rewrite decide_False by done.
  destruct (go_head (N.pos p) "") as (c & rest & Hgo & Hc); [done|].
  pose proof (go_skip_right_empty (N.pos p)) as Hr.
  pose proof (int_digits_go (N.pos p) "") as Hd.
  rewrite Hgo in *. exists c, rest. repeat split; try done.
  cbn in *. by rewrite Hc in *.
Qed.

(** [int(str(n)) == n]: [str_int] is the decimal rendering that [int]
    reads. *)
Lemma int_of_str_str_int n : int_of_str (str_int n) = Some n.
Proof.
  destruct n as [|p|p]; [done| |];
    destruct (pretty_pos p) as (c & rest & Hp & Hc & Hr & Hlit);
    destruct (digit_not_sign c Hc) as (Hsp & Hplus & Hminus);
    unfold str_int.
  - change (pretty (Z.pos p)) with (pretty (N.pos p)). rewrite Hp.
    unfold int_of_str. cbn [skip_left]. rewrite Hsp, Hr.
    destruct c as [[] [] [] [] [] [] [] []]; try discriminate; exact Hlit.
  - change (pretty (Z.neg p)) with (String "-" (pretty (N.pos p))). rewrite Hp.
    unfold int_of_str.
    change (skip_left (String "-" (String c rest))) with (String "-" (String c rest)).
    rewrite (skip_right_cons "-" (String c rest)) by done.
    by rewrite Hlit.
Qed.

(** ** [_extract_error_message] *)

Lemma extract_message resp d m :
  json resp = Return (PDict d) -> d !! "message" = Some m ->
  _extract_error_message resp = m.
Proof.
  intros Hj Hm. unfold _extract_error_message, call_json.
  rewrite Hj. cbn. by rewrite Hm.
Qed.

Lemma extract_no_message resp d :
  json resp = Return (PDict d) -> d !! "message" = None ->
  _extract_error_message resp = PStr ("API Error: " ++ str_int (status_code resp)).
Proof.
  intros Hj Hm. unfold _extract_error_message, call_json.
  rewrite Hj. cbn. by rewrite Hm.
Qed.

Lemma extract_not_json resp s :
  json resp = Raise s ->
  _extract_error_message resp =
  PStr (slice_to 300 ("API Error: " ++ str_int (status_code resp) ++ " - " ++ text resp)).
Proof. intros Hj. unfold _extract_error_message, call_json. by rewrite Hj. Qed.

Lemma extract_non_object resp j :
  json resp = Return j -> is_dict j = false ->
  _extract_error_message resp =
  PStr (slice_to 300 ("API Error: " ++ str_int (status_code resp) ++ " - " ++ text resp)).
Proof.
  intros Hj Hd. unfold _extract_error_message, call_json. rewrite Hj. by destruct j.
Qed.

(** The fallback text: the first 300 characters of
    "API Error: <status> - <body>", all of it when it is no longer. *)
Lemma extract_fallback resp :
  (∃ str_e, json resp = Raise str_e) ∨ (∃ j, json resp = Return j ∧ is_dict j = false) ->
  let composite := "API Error: " ++ str_int (status_code resp) ++ " - " ++ text resp in
  ∃ msg rest,
    _extract_error_message resp = PStr msg ∧
    composite = msg ++ rest ∧
    String.length msg = Nat.min 300 (String.length composite) ∧
    ((String.length composite <= 300)%nat -> msg = composite).
Proof.
  intros Hj composite.
  assert (_extract_error_message resp = PStr (slice_to 300 composite)) as ->.
  { destruct Hj as [[str_e Hj] | (j & Hj & Hd)];
      [by apply (extract_not_json resp str_e) | by apply (extract_non_object resp j)]. }
  destruct (slice_to_spec 300 composite) as ([rest Hrest] & Hlen & Hshort).
  by exists (slice_to 300 composite), rest.
Qed.

(** ** [get_ofac_party_info] *)

(** One request goes out, whatever comes back. *)
Lemma lookup_sent party_id w :
  sent (get_ofac_party_info party_id) w = [lookup_request w party_id].
Proof.
  unfold get_ofac_party_info, lookup_request, raise_for_status. run_io.
  repeat case_match; simplify_eq; reflexivity.
Qed.

Lemma lookup_answered w party_id reply :
  answers w (get_ofac_party_info party_id) reply ->
  http_get w (lookup_request w party_id) = reply.
Proof. intros (req & Hs & Hg). rewrite lookup_sent in Hs. by simplify_eq. Qed.

(** A status outside 2xx: the message is read off the response. *)
Lemma lookup_http_error w party_id r :
  http_get w (lookup_request w party_id) = Return r ->
  is_success (status_code r) = false ->
  result (get_ofac_party_info party_id) w = Return (error (_extract_error_message r)).
Proof.
  unfold get_ofac_party_info, lookup_request, raise_for_status. intros Hg Hs. run_io.
  rewrite Hg, Hs. reflexivity.
Qed.

(** A 2xx status with a JSON object: [resultCd] decides. *)
Lemma lookup_object w party_id r d :
  http_get w (lookup_request w party_id) = Return r ->
  is_success (status_code r) = true ->
  json r = Return (PDict d) ->
  result (get_ofac_party_info party_id) w =
  Return (if is_True (default PNone (d !! "resultCd"))
          then success (default (PDict ∅) (d !! "data"))
          else error (default (PStr "API returned error") (d !! "message"))).
Proof.
  unfold get_ofac_party_info, lookup_request, raise_for_status, call_json.
  intros Hg Hs Hj. run_io. rewrite Hg, Hs, Hj. cbn.
  by destruct (is_True _).
Qed.

Lemma lookup_outcome w party_id :
  ∃ v, result (get_ofac_party_info party_id) w = Return v ∧ Outcome v.
Proof.
  unfold get_ofac_party_info, raise_for_status. run_io.
  repeat case_match; simplify_eq; cbn; eexists; (split; [reflexivity|]);
    first [apply Outcome_success | apply Outcome_error].
Qed.

(** ** [search_party] *)

Section search_party_run.
Context (w : world) (q scope country city limit fuzzy : pyval).

Lemma search_short_query q' :
  py_strip (py_or q (PStr "")) = Return q' ->
  (String.length q' < 2)%nat ->
  search_party q scope country city limit fuzzy w =
  (Return (error (PStr "q must be at least 2 characters")), []).
Proof.
  intros Hq Hlen. apply Nat.ltb_lt in Hlen.
  unfold search_party. run_io. by rewrite Hq, Hlen.
Qed.

Lemma search_bad_scope q' scope' :
  py_strip (py_or q (PStr "")) = Return q' ->
  (String.length q' <? 2)%nat = false ->
  py_lower (py_or scope (PStr "all")) = Return scope' ->
  scope' ∉ ALLOWED_SCOPES ->
  search_party q scope country city limit fuzzy w =
  (Return (error (PStr ("scope must be one of " ++ join ", " (set_iter w)))), []).
Proof.
  intros Hq Hlen Hs Hin.
  unfold search_party. run_io. rewrite Hq, Hlen, Hs.
  by rewrite bool_decide_false.
Qed.

(** Past the checks the function is its [try] block; the request is sent
    whatever the block then does. *)
Lemma search_sent q' scope' n :
  accepts q scope limit q' scope' n ->
  sent (search_party q scope country city limit fuzzy) w =
  [search_request w q' scope' (clamp n) country city fuzzy].
Proof.
  intros (Hq & Hlen & Hs & Hin & Hn).
  unfold search_party, search_request, search_params, clamp, raise_for_status. run_io.
  rewrite Hq, Hlen, Hs, bool_decide_true, Hn by done. cbn.
  match goal with |- context [http_get w (Request _ _ ?p _)] => generalize p end.
  intros ps. repeat case_match; simplify_eq; reflexivity.
Qed.

Lemma search_http_error q' scope' n r :
  accepts q scope limit q' scope' n ->
  http_get w (search_request w q' scope' (clamp n) country city fuzzy) = Return r ->
  is_success (status_code r) = false ->
  result (search_party q scope country city limit fuzzy) w =
  Return (error (_extract_error_message r)).
Proof.
  intros (Hq & Hlen & Hs & Hin & Hn).
  unfold search_party, search_request, search_params, clamp, raise_for_status.
  intros Hg Hst. run_io.
  rewrite Hq, Hlen, Hs, bool_decide_true, Hn by done. cbn.
  rewrite Hg, Hst. reflexivity.
Qed.

Lemma search_object q' scope' n r d :
  accepts q scope limit q' scope' n ->
  http_get w (search_request w q' scope' (clamp n) country city fuzzy) = Return r ->
  is_success (status_code r) = true ->
  json r = Return (PDict d) ->
  result (search_party q scope country city limit fuzzy) w =
  Return (if is_True (default PNone (d !! "resultCd"))
          then match py_len (default (PList []) (d !! "data")) with
               | Return _ => success (default (PList []) (d !! "data"))
               | Raise (Exception str_e) => error (PStr str_e)
               | Raise (RequestError str_e) => error (PStr str_e)
               | Raise (HTTPStatusError response) => error (_extract_error_message response)
               end
          else error (default (PStr "API returned error") (d !! "message"))).
Proof.
  intros (Hq & Hlen & Hs & Hin & Hn).
  unfold search_party, search_request, search_params, clamp, raise_for_status, call_json.
  intros Hg Hst Hj. run_io.
  rewrite Hq, Hlen, Hs, bool_decide_true, Hn by done. cbn.
  rewrite Hg, Hst, Hj. cbn.
  destruct (is_True _); [|reflexivity].
  destruct (py_len _) as [?|[]]; reflexivity.
Qed.

(** A request on the record means the checks were passed. *)
Lemma search_sent_inv req :
  req ∈ sent (search_party q scope country city limit fuzzy) w ->
  ∃ q' scope' n,
    accepts q scope limit q' scope' n ∧
    req = search_request w q' scope' (clamp n) country city fuzzy.
Proof.
  intros Hreq.
  destruct (py_strip (py_or q (PStr ""))) as [q'|e] eqn:Hq; cycle 1.
  { unfold search_party in Hreq. run_io. rewrite Hq in Hreq. by apply elem_of_nil in Hreq. }
  destruct (String.length q' <? 2)%nat eqn:Hlen.
  { unfold search_party in Hreq. run_io. rewrite Hq, Hlen in Hreq. by apply elem_of_nil in Hreq. }
  destruct (py_lower (py_or scope (PStr "all"))) as [scope'|e] eqn:Hs; cycle 1.
  { unfold search_party in Hreq. run_io. rewrite Hq, Hlen, Hs in Hreq.
    by apply elem_of_nil in Hreq. }
  destruct (decide (scope' ∈ ALLOWED_SCOPES)) as [Hin|Hin]; cycle 1.
  { unfold search_party in Hreq. run_io.
    rewrite Hq, Hlen, Hs, bool_decide_false in Hreq by done.
    by apply elem_of_nil in Hreq. }
  destruct (py_int (py_or limit (PInt 100))) as [n|e] eqn:Hn; cycle 1.
  { unfold search_party in Hreq. run_io.
    rewrite Hq, Hlen, Hs, bool_decide_true, Hn in Hreq by done.
    by apply elem_of_nil in Hreq. }
  exists q', scope', n. split; [done|].
  rewrite (search_sent q' scope' n) in Hreq by done.
  by apply list_elem_of_singleton in Hreq.
Qed.

Lemma search_answered reply :
  answers w (search_party q scope country city limit fuzzy) reply ->
  ∃ q' scope' n,
    accepts q scope limit q' scope' n ∧
    http_get w (search_request w q' scope' (clamp n) country city fuzzy) = reply.
Proof.
  intros (req & Hs & Hg).
  destruct (search_sent_inv req) as (q' & s' & n & Ha & ->).
  { rewrite Hs. apply list_elem_of_singleton. reflexivity. }
  by exists q', s', n.
Qed.

Lemma search_client_raise q' scope' n e :
  accepts q scope limit q' scope' n ->
  http_get w (search_request w q' scope' (clamp n) country city fuzzy) = Raise e ->
  result (search_party q scope country city limit fuzzy) w =
  Return (error (match e with
                 | HTTPStatusError response => _extract_error_message response
                 | RequestError str_e | Exception str_e => PStr str_e
                 end)).
Proof.
  intros (Hq & Hlen & Hs & Hin & Hn).
  unfold search_party, search_request, search_params, clamp.
  intros Hg. run_io.
  rewrite Hq, Hlen, Hs, bool_decide_true, Hn by done. cbn.
  rewrite Hg. by destruct e.
Qed.

Lemma search_accepted_outcome q' scope' n :
  accepts q scope limit q' scope' n ->
  ∃ v, result (search_party q scope country city limit fuzzy) w = Return v ∧ Outcome v.
Proof.
  intros (Hq & Hlen & Hs & Hin & Hn).
  unfold search_party, raise_for_status. run_io.
  rewrite Hq, Hlen, Hs, bool_decide_true, Hn by done. cbn.
  match goal with |- context [http_get w (Request _ _ ?p _)] => generalize p end.
  intros ps.
  repeat case_match; simplify_eq; cbn; eexists; (split; [reflexivity|]);
    first [apply Outcome_success | apply Outcome_error].
Qed.

End search_party_run.

(** Arguments of the annotated types get through the coercions. *)
Lemma strip_typed q :
  is_str_or_none q = true -> ∃ q', py_strip (py_or q (PStr "")) = Return q'.
Proof. destruct q; try discriminate; intros _; unfold py_or; cbn; try case_match; cbn; eauto. Qed.

Lemma lower_typed scope :
  is_str_or_none scope = true -> ∃ s, py_lower (py_or scope (PStr "all")) = Return s.
Proof. destruct scope; try discriminate; intros _; unfold py_or; cbn; try case_match; cbn; eauto. Qed.

Lemma int_typed limit :
  is_int_or_none limit = true -> ∃ n, py_int (py_or limit (PInt 100)) = Return n.
Proof. destruct limit; try discriminate; intros _; unfold py_or; cbn; try case_match; cbn; eauto. Qed.

Lemma search_typed_outcome w q scope country city limit fuzzy :
  is_str_or_none q = true -> is_str_or_none scope = true -> is_int_or_none limit = true ->
  ∃ v, result (search_party q scope country city limit fuzzy) w = Return v ∧ Outcome v.
Proof.
  intros [q' Hq]%strip_typed [s Hs]%lower_typed [n Hn]%int_typed.
  destruct (String.length q' <? 2)%nat eqn:Hlen.
  { apply Nat.ltb_lt in Hlen. unfold result.
    rewrite (search_short_query w q scope country city limit fuzzy q') by done. cbn. eauto using Outcome. }
  destruct (decide (s ∈ ALLOWED_SCOPES)) as [Hin|Hin].
  - by apply (search_accepted_outcome w q scope country city limit fuzzy q' s n).
  - unfold result. rewrite (search_bad_scope w q scope country city limit fuzzy q' s) by done. cbn. eauto using Outcome.
Qed.

(** The parameters of a search, key by key. *)
Lemma search_params_lookup q scope n country city fuzzy :
  let ps := search_params q scope n country city fuzzy in
  ps !! "q" = Some (PStr q) ∧
  ps !! "scope" = Some (PStr scope) ∧
  ps !! "limit" = Some (PStr (str_int n)) ∧
  ps !! "country" = (if truthy country then Some country else None) ∧
  ps !! "city" = (if truthy city then Some city else None) ∧
  ps !! "fuzzy" = (if truthy fuzzy then Some (PStr "true") else None) ∧
  dom ps ⊆ {[ "q"; "scope"; "limit"; "country"; "city"; "fuzzy" ]}.
Proof.
  unfold search_params. cbn.
  destruct (truthy country), (truthy city), (truthy fuzzy);
    repeat split; try reflexivity;
    rewrite ?dom_insert_L, ?dom_empty_L; decide_by_computing.
Qed.

(** ** Either tool, by the kind of answer *)

Lemma call_http_error w op r :
  tool_call op -> answers w op (Return r) ->
  is_success (status_code r) = false ->
  result op w = Return (error (_extract_error_message r)).
Proof.
  intros [party_id | q scope country city limit fuzzy] Hans Hst.
  - apply lookup_answered in Hans. by apply lookup_http_error.
  - apply search_answered in Hans as (q' & s' & n & Hacc & Hg).
    by apply (search_http_error w q scope country city limit fuzzy q' s' n).
Qed.

Lemma call_business_error w op r d :
  tool_call op -> answers w op (Return r) ->
  is_success (status_code r) = true ->
  json r = Return (PDict d) ->
  is_True (default PNone (d !! "resultCd")) = false ->
  result op w = Return (error (default (PStr "API returned error") (d !! "message"))).
Proof.
  intros [party_id | q scope country city limit fuzzy] Hans Hst Hj Hrc.
  - apply lookup_answered in Hans.
    rewrite (lookup_object w party_id r d) by done. by rewrite Hrc.
  - apply search_answered in Hans as (q' & s' & n & Hacc & Hg).
    rewrite (search_object w q scope country city limit fuzzy q' s' n r d) by done.
    by rewrite Hrc.
Qed.

Lemma not_exactly_true (d : gmap string pyval) :
  d !! "resultCd" ≠ Some (PBool true) ->
  is_True (default PNone (d !! "resultCd")) = false.
Proof.
  intros Hne. destruct (is_True _) eqn:Ht; [|done].
  apply is_True_spec in Ht. destruct (d !! "resultCd") as [v|]; cbn in Ht; congruence.
Qed.

(** In a world that gives every request the same answer, a lookup, and a
    search for "ab" with the defaults, get that answer. *)
Lemma world_of_answers_lookup reply party_id :
  answers (world_of reply) (get_ofac_party_info party_id) reply.
Proof.
  exists (lookup_request (world_of reply) party_id).
  split; [apply lookup_sent | reflexivity].
Qed.

Lemma world_of_answers_search reply :
  answers (world_of reply)
    (search_party (PStr "ab") default_scope default_country default_city
       default_limit default_fuzzy) reply.
Proof.
  eexists. split; [|reflexivity].
  by apply (search_sent _ _ _ _ _ _ _ "ab" "all" 100).
Qed.

(** ** The claims *)

(** C1 (as amended): for every call whose arguments have the annotated
    types (strings or none for [q] and [scope], an integer or none for
    [limit]; anything for the rest) and for every behaviour of the remote
    side, the tool returns one of the two outcome dictionaries and raises
    nothing. *)
Theorem typed_call_returns_outcome w op :
  typed_call op -> ∃ v, result op w = Return v ∧ Outcome v.
Proof.
  intros [party_id | q scope country city limit fuzzy Hq Hs Hl].
  - apply lookup_outcome.
  - by apply search_typed_outcome.
Qed.

Lemma typed_call_returns_outcome_witness :
  typed_call (search_party (PStr "ab") default_scope default_country default_city
                default_limit default_fuzzy) ∧
  ∃ v, result (search_party (PStr "ab") default_scope default_country default_city
                 default_limit default_fuzzy) (world_of refused) = Return v ∧ Outcome v.
Proof.
  split.
  - apply typed_search; reflexivity.
  - apply (typed_call_returns_outcome (world_of refused)).
    apply typed_search; reflexivity.
Defined.

(** C1, as stated, fails: with the non-numeric limit ["abc"] the coercion
    [int(limit or 100)] raises [ValueError] before the [try] block is
    entered, and the exception leaves [search_party]. *)
Lemma non_numeric_limit_escapes :
  search_party (PStr "ab") default_scope default_country default_city
    (PStr "abc") default_fuzzy (world_of refused)
  = (Raise ValueError, []).
Proof. reflexivity. Qed.

(** C2 (as amended): whenever [search_party] sends a request, the [limit]
    parameter is the decimal rendering of an integer between 1 and 1000.
    For an integer argument: a negative value gives 1, a value above 1000
    gives 1000, a value in range is kept, and zero, like none, gives 100. *)
Theorem forwarded_limit w q scope country city limit fuzzy req :
  req ∈ sent (search_party q scope country city limit fuzzy) w ->
  ∃ n, 1 <= n <= 1000 ∧
       params req !! "limit" = Some (PStr (str_int n)) ∧
       (limit = PNone -> n = 100) ∧
       (limit = PInt 0 -> n = 100) ∧
       (∀ k, limit = PInt k -> k < 0 -> n = 1) ∧
       (∀ k, limit = PInt k -> 1 <= k <= 1000 -> n = k) ∧
       (∀ k, limit = PInt k -> 1000 < k -> n = 1000).
Proof.
  intros (q' & s' & n & (_ & _ & _ & _ & Hn) & ->)%search_sent_inv.
  exists (clamp n). split; [apply clamp_range|].
  split; [apply search_params_lookup|].
  unfold clamp. repeat split.
  - intros ->. cbn in Hn. by simplify_eq.
  - intros ->. cbn in Hn. by simplify_eq.
  - intros k -> Hk. unfold py_or in Hn. cbn in Hn.
    destruct (Z.eqb_spec k 0); cbn in Hn; simplify_eq; lia.
  - intros k -> Hk. unfold py_or in Hn. cbn in Hn.
    destruct (Z.eqb_spec k 0); cbn in Hn; simplify_eq; lia.
  - intros k -> Hk. unfold py_or in Hn. cbn in Hn.
    destruct (Z.eqb_spec k 0); cbn in Hn; simplify_eq; lia.
Qed.

Lemma accepts_ab limit n :
  py_int (py_or limit (PInt 100)) = Return n ->
  accepts (PStr "ab") default_scope limit "ab" "all" n.
Proof. intros Hn. by repeat split. Qed.

Lemma forwarded_limit_witness :
  let w := world_of refused in
  let req := search_request w "ab" "all" 1 default_country default_city default_fuzzy in
  req ∈ sent (search_party (PStr "ab") default_scope default_country default_city
                (PInt (-5)) default_fuzzy) w ∧
  ∃ n, 1 <= n <= 1000 ∧
       params req !! "limit" = Some (PStr (str_int n)) ∧
       (PInt (-5) = PNone -> n = 100) ∧
       (PInt (-5) = PInt 0 -> n = 100) ∧
       (∀ k, PInt (-5) = PInt k -> k < 0 -> n = 1) ∧
       (∀ k, PInt (-5) = PInt k -> 1 <= k <= 1000 -> n = k) ∧
       (∀ k, PInt (-5) = PInt k -> 1000 < k -> n = 1000).
Proof.
  intros w req.
  assert (Hreq : req ∈ sent (search_party (PStr "ab") default_scope default_country
                              default_city (PInt (-5)) default_fuzzy) w).
  { rewrite (search_sent w _ _ _ _ _ _ "ab" "all" (-5)) by (by apply accepts_ab).
    apply list_elem_of_singleton. reflexivity. }
  split; [exact Hreq|].
  exact (forwarded_limit w _ _ _ _ _ _ req Hreq).
Defined.

(** C2, as stated, fails at zero, a value below 1: it is not raised to 1
    but replaced by the default, since [limit or 100] takes zero for an
    absent value; and a non-numeric string is not replaced by 100, the
    call raises and sends nothing. *)
Lemma zero_limit_forwards_100 :
  (0 < 1) ∧
  (λ req, params req !! "limit") <$>
    sent (search_party (PStr "ab") default_scope default_country default_city
            (PInt 0) default_fuzzy) (world_of refused)
  = [Some (PStr "100")] ∧
  search_party (PStr "ab") default_scope default_country default_city
    (PStr "abc") default_fuzzy (world_of refused)
  = (Raise ValueError, []).
Proof. split; [lia|]. split; reflexivity. Qed.

(** C3: for every query string whose stripped length is below 2,
    [search_party] returns the error dictionary with the message
    "q must be at least 2 characters" and sends no request, whatever the
    other arguments are. *)
Theorem short_query_rejected w s scope country city limit fuzzy :
  (String.length (strip s) < 2)%nat ->
  result (search_party (PStr s) scope country city limit fuzzy) w
  = Return (error (PStr "q must be at least 2 characters")) ∧
  sent (search_party (PStr s) scope country city limit fuzzy) w = [].
Proof.
  intros Hlen.
  assert (Hq : py_strip (py_or (PStr s) (PStr "")) = Return (strip s)).
  { unfold py_or. cbn. destruct s; reflexivity. }
  unfold result, sent.
  rewrite (search_short_query w (PStr s) scope country city limit fuzzy (strip s)) by done.
  split; reflexivity.
Qed.

Lemma short_query_rejected_witness :
  (String.length (strip " a ") < 2)%nat ∧
  result (search_party (PStr " a ") default_scope default_country default_city
            default_limit default_fuzzy) (world_of refused)
  = Return (error (PStr "q must be at least 2 characters")) ∧
  sent (search_party (PStr " a ") default_scope default_country default_city
          default_limit default_fuzzy) (world_of refused) = [].
Proof.
  split; [vm_compute; lia|].
  apply (short_query_rejected (world_of refused) " a "). vm_compute. lia.
Defined.

Lemma iterates_permutation w :
  iterates_set w -> set_iter w ≡ₚ ["all"; "name"; "alias"; "address"].
Proof.
  intros [Hnd Hin]. apply NoDup_Permutation; [done| |].
  - decide_by_computing.
  - intros s. rewrite Hin. unfold ALLOWED_SCOPES.
    rewrite !elem_of_union, !elem_of_singleton, !elem_of_cons, elem_of_nil. tauto.
Qed.

Lemma lower_nonempty s : lower s ∈ ALLOWED_SCOPES -> s ≠ "".
Proof. intros Hin ->. revert Hin. decide_by_computing. Qed.

Lemma or_nonempty s dflt : s ≠ "" -> py_or (PStr s) dflt = PStr s.
Proof. intros Hs. unfold py_or. cbn. by destruct s. Qed.

(** C4 (as amended): a non-empty scope is lowercased before it is checked,
    so every case variant of all, name, alias or address is accepted and
    forwarded in lower case; an empty or absent scope is taken as "all";
    for every non-empty scope whose lowercase form is not one of the four,
    [search_party] returns the error dictionary whose message lists the
    allowed names, in the order in which the set is iterated, and sends no
    request. *)
Theorem scope_check w q q' scope country city limit fuzzy :
  iterates_set w ->
  py_strip (py_or q (PStr "")) = Return q' ->
  (2 <= String.length q')%nat ->
  (∀ s, scope = PStr s -> s ≠ "" -> lower s ∉ ALLOWED_SCOPES ->
     ∃ names, names ≡ₚ ["all"; "name"; "alias"; "address"] ∧
       result (search_party q scope country city limit fuzzy) w
       = Return (error (PStr ("scope must be one of " ++ join ", " names))) ∧
       sent (search_party q scope country city limit fuzzy) w = []) ∧
  (∀ s n, scope = PStr s -> lower s ∈ ALLOWED_SCOPES ->
     py_int (py_or limit (PInt 100)) = Return n ->
     sent (search_party q scope country city limit fuzzy) w
     = [search_request w q' (lower s) (clamp n) country city fuzzy]) ∧
  (∀ n, scope = PStr "" ∨ scope = PNone ->
     py_int (py_or limit (PInt 100)) = Return n ->
     sent (search_party q scope country city limit fuzzy) w
     = [search_request w q' "all" (clamp n) country city fuzzy]).
Proof.
  intros Hw Hq Hlen. apply Nat.ltb_ge in Hlen. repeat split.
  - intros s -> Hs Hin. exists (set_iter w).
    split; [by apply iterates_permutation|].
    unfold result, sent.
    rewrite (search_bad_scope w q (PStr s) country city limit fuzzy q' (lower s)); [done..| |done].
    by rewrite or_nonempty.
  - intros s n -> Hin Hn. apply search_sent. repeat split; try done.
    by rewrite or_nonempty by by apply lower_nonempty.
  - intros n Hs Hn. apply search_sent. repeat split; try done.
    by destruct Hs as [-> | ->].
Qed.

Lemma iterates_world_of reply : iterates_set (world_of reply).
Proof.
  split; [decide_by_computing|].
  intros s. cbn. unfold ALLOWED_SCOPES.
  rewrite !elem_of_union, !elem_of_singleton, !elem_of_cons, elem_of_nil. tauto.
Qed.

Lemma scope_check_witness :
  let w := world_of refused in
  sent (search_party (PStr "ab") (PStr "ALL") default_country default_city
          default_limit default_fuzzy) w
  = [search_request w "ab" "all" 100 default_country default_city default_fuzzy] ∧
  result (search_party (PStr "ab") (PStr "Everything") default_country default_city
            default_limit default_fuzzy) w
  = Return (error (PStr "scope must be one of name, address, all, alias")).
Proof.
  intros w. split.
  - destruct (scope_check w (PStr "ab") "ab" (PStr "ALL") default_country default_city
                default_limit default_fuzzy) as (_ & Hok & _).
    + apply iterates_world_of.
    + reflexivity.
    + vm_compute. lia.
    + apply (Hok "ALL" 100); [reflexivity| |reflexivity].
      decide_by_computing.
  - destruct (scope_check w (PStr "ab") "ab" (PStr "Everything") default_country
                default_city default_limit default_fuzzy) as (Hbad & _ & _).
    + apply iterates_world_of.
    + reflexivity.
    + vm_compute. lia.
    + destruct (Hbad "Everything") as (names & _ & _ & _); [reflexivity|done| |].
      * decide_by_computing.
      * reflexivity.
Defined.

(** C4, as stated, fails at the empty scope: its lowercase form, the empty
    string, is none of the four names, yet the call is not refused; the
    request goes out with scope "all". *)
Lemma empty_scope_is_accepted :
  (lower "" ∉ ALLOWED_SCOPES) ∧
  sent (search_party (PStr "ab") (PStr "") default_country default_city
          default_limit default_fuzzy) (world_of refused)
  = [search_request (world_of refused) "ab" "all" 100
       default_country default_city default_fuzzy].
Proof. split; [decide_by_computing | reflexivity]. Qed.



(** C6 (as amended): when the remote side answers a call of either tool
    with a status outside 2xx, the tool returns the error dictionary.  Its
    message is the [message] member of the JSON object in the body when
    there is one; "API Error: <status>" when the body is a JSON object
    without that member; and, when the body does not decode as JSON or
    decodes to something that is not an object, the first 300 characters of
    the text "API Error: <status> - <body>", which is all of that text when
    it has no more than 300. *)
Theorem http_error_message w op r :
  tool_call op ->
  answers w op (Return r) ->
  is_success (status_code r) = false ->
  let composite := "API Error: " ++ str_int (status_code r) ++ " - " ++ text r in
  (∀ d m, json r = Return (PDict d) -> d !! "message" = Some m ->
     result op w = Return (error m)) ∧
  (∀ d, json r = Return (PDict d) -> d !! "message" = None ->
     result op w = Return (error (PStr ("API Error: " ++ str_int (status_code r))))) ∧
  ((∃ str_e, json r = Raise str_e) ∨ (∃ j, json r = Return j ∧ is_dict j = false) ->
     ∃ msg rest,
       result op w = Return (error (PStr msg)) ∧
       composite = msg ++ rest ∧
       String.length msg = Nat.min 300 (String.length composite) ∧
       ((String.length composite <= 300)%nat -> msg = composite)).
Proof.
  intros Hop Hans Hst composite.
  rewrite (call_http_error w op r) by done. split; [|split].
  - intros d m Hj Hm. by rewrite (extract_message r d m).
  - intros d Hj Hm. by rewrite (extract_no_message r d).
  - intros Hj. destruct (extract_fallback r Hj) as (msg & rest & -> & Hcut).
    by exists msg, rest.
Qed.

Lemma http_error_message_witness :
  let w := world_of db_down in
  result (get_ofac_party_info 7) w = Return (error (PStr "db down")) ∧
  result (search_party (PStr "ab") default_scope default_country default_city
            default_limit default_fuzzy) w = Return (error (PStr "db down")) ∧
  result (get_ofac_party_info 7) (world_of (ok_json 404 (PDict ∅)))
  = Return (error (PStr "API Error: 404")) ∧
  result (get_ofac_party_info 7) (world_of (not_json 502 "Bad Gateway"))
  = Return (error (PStr "API Error: 502 - Bad Gateway")) ∧
  ∃ msg rest,
    result (get_ofac_party_info 7) (world_of (not_json 500 long_body))
    = Return (error (PStr msg)) ∧
    "API Error: 500 - " ++ long_body = msg ++ rest ∧
    String.length msg = 300%nat.
Proof.
  intros w. split; [|split; [|split; [|split]]].
  - destruct (http_error_message w (get_ofac_party_info 7)
                (mkResponse 500 db_down_body (Return (PDict {[ "message" := PStr "db down" ]}))))
      as (Hmsg & _ & _).
    + apply call_lookup.
    + apply world_of_answers_lookup.
    + reflexivity.
    + apply (Hmsg {[ "message" := PStr "db down" ]}); reflexivity.
  - destruct (http_error_message w
                (search_party (PStr "ab") default_scope default_country default_city
                   default_limit default_fuzzy)
                (mkResponse 500 db_down_body (Return (PDict {[ "message" := PStr "db down" ]}))))
      as (Hmsg & _ & _).
    + apply call_search.
    + apply world_of_answers_search.
    + reflexivity.
    + apply (Hmsg {[ "message" := PStr "db down" ]}); reflexivity.
  - destruct (http_error_message (world_of (ok_json 404 (PDict ∅)))
                (get_ofac_party_info 7) (mkResponse 404 "" (Return (PDict ∅))))
      as (_ & Hplain & _).
    + apply call_lookup.
    + apply world_of_answers_lookup.
    + reflexivity.
    + apply (Hplain ∅); reflexivity.
  - destruct (http_error_message (world_of (not_json 502 "Bad Gateway"))
                (get_ofac_party_info 7)
                (mkResponse 502 "Bad Gateway"
                   (Raise "Expecting value: line 1 column 1 (char 0)")))
      as (_ & _ & Hcut).
    + apply call_lookup.
    + apply world_of_answers_lookup.
    + reflexivity.
    + destruct Hcut as (msg & rest & Hres & _ & _ & Hshort).
      * left. by eexists.
      * rewrite Hres, Hshort; [reflexivity | vm_compute; lia].
  - destruct (http_error_message (world_of (not_json 500 long_body))
                (get_ofac_party_info 7)
                (mkResponse 500 long_body
                   (Raise "Expecting value: line 1 column 1 (char 0)")))
      as (_ & _ & Hcut).
    + apply call_lookup.
    + apply world_of_answers_lookup.
    + reflexivity.
    + destruct Hcut as (msg & rest & Hres & Hpre & Hlen & _).
      * left. by eexists.
      * exists msg, rest. split; [exact Hres|]. split; [exact Hpre|]. exact Hlen.
Defined.

(** C6, as stated, fails on a status outside 2xx whose body is a JSON
    object without a [message] member: there is no such member to return,
    and the message is "API Error: <status>", which is not the text made of
    the status and the body either. *)
Lemma missing_message_gets_status_text :
  (∅ : gmap string pyval) !! "message" = None ∧
  result (get_ofac_party_info 7)
    (world_of (Return (mkResponse 500 "{}" (Return (PDict ∅)))))
  = Return (error (PStr "API Error: 500")) ∧
  "API Error: 500" ≠ "API Error: " ++ str_int 500 ++ " - " ++ "{}".
Proof. split; [reflexivity|]. split; [reflexivity|]. intros Heq. vm_compute in Heq. discriminate. Qed.

(** C7: when a call of either tool is answered with a 2xx status and a JSON
    object whose [resultCd] is anything but the boolean true (absent, null,
    the string "true" and the number 1 included), the tool returns the
    error dictionary; its message is the object's [message] member, or
    "API returned error" when there is none. *)
Theorem business_error_message w op r d :
  tool_call op ->
  answers w op (Return r) ->
  is_success (status_code r) = true ->
  json r = Return (PDict d) ->
  d !! "resultCd" ≠ Some (PBool true) ->
  result op w = Return (error (default (PStr "API returned error") (d !! "message"))) ∧
  (∀ m, d !! "message" = Some m -> result op w = Return (error m)) ∧
  (d !! "message" = None -> result op w = Return (error (PStr "API returned error"))).
Proof.
  intros Hop Hans Hst Hj Hrc%not_exactly_true.
  rewrite (call_business_error w op r d) by done.
  split; [done|]. split.
  - by intros m ->.
  - by intros ->.
Qed.

Lemma business_error_message_witness :
  let numeric : gmap string pyval :=
    {[ "resultCd" := PInt 1; "message" := PStr "no such party" ]} in
  let text : gmap string pyval := {[ "resultCd" := PStr "true" ]} in
  let null : gmap string pyval := {[ "resultCd" := PNone ]} in
  result (get_ofac_party_info 7) (world_of (ok_json 200 (PDict numeric)))
  = Return (error (PStr "no such party")) ∧
  result (search_party (PStr "ab") default_scope default_country default_city
            default_limit default_fuzzy) (world_of (ok_json 200 (PDict text)))
  = Return (error (PStr "API returned error")) ∧
  result (get_ofac_party_info 7) (world_of (ok_json 200 (PDict null)))
  = Return (error (PStr "API returned error")) ∧
  result (get_ofac_party_info 7) (world_of (ok_json 200 (PDict ∅)))
  = Return (error (PStr "API returned error")).
Proof.
  intros numeric text null. split; [|split; [|split]].
  - destruct (business_error_message (world_of (ok_json 200 (PDict numeric)))
                (get_ofac_party_info 7) (mkResponse 200 "" (Return (PDict numeric))) numeric)
      as (_ & Hmsg & _).
    + apply call_lookup.
    + apply world_of_answers_lookup.
    + reflexivity.
    + reflexivity.
    + discriminate.
    + apply Hmsg. reflexivity.
  - destruct (business_error_message (world_of (ok_json 200 (PDict text)))
                (search_party (PStr "ab") default_scope default_country default_city
                   default_limit default_fuzzy)
                (mkResponse 200 "" (Return (PDict text))) text)
      as (_ & _ & Hdflt).
    + apply call_search.
    + apply world_of_answers_search.
    + reflexivity.
    + reflexivity.
    + discriminate.
    + apply Hdflt. reflexivity.
  - destruct (business_error_message (world_of (ok_json 200 (PDict null)))
                (get_ofac_party_info 7) (mkResponse 200 "" (Return (PDict null))) null)
      as (_ & _ & Hdflt).
    + apply call_lookup.
    + apply world_of_answers_lookup.
    + reflexivity.
    + reflexivity.
    + discriminate.
    + apply Hdflt. reflexivity.
  - destruct (business_error_message (world_of (ok_json 200 (PDict ∅)))
                (get_ofac_party_info 7) (mkResponse 200 "" (Return (PDict ∅))) ∅)
      as (_ & _ & Hdflt).
    + apply call_lookup.
    + apply world_of_answers_lookup.
    + reflexivity.
    + reflexivity.
    + discriminate.
    + apply Hdflt. reflexivity.
Defined.

(** C8: when a lookup is answered with a 2xx status and a JSON object
    whose [resultCd] is true, the tool returns the success dictionary with
    the object's [data] member, unchanged, as its data; so for identifier 7
    and [{resultCd: true, data: {"id": 7}}] it returns
    [{status: "success", data: {"id": 7}}]. *)
Theorem lookup_passes_data w party_id r d data :
  answers w (get_ofac_party_info party_id) (Return r) ->
  is_success (status_code r) = true ->
  json r = Return (PDict d) ->
  d !! "resultCd" = Some (PBool true) ->
  d !! "data" = Some data ->
  result (get_ofac_party_info party_id) w
  = Return (PDict {[ "status" := PStr "success"; "data" := data ]}).
Proof.
  intros Hans%lookup_answered Hst Hj Hrc Hdata.
  rewrite (lookup_object w party_id r d) by done.
  by rewrite Hrc, Hdata.
Qed.

Lemma lookup_passes_data_witness :
  let body : gmap string pyval :=
    {[ "resultCd" := PBool true; "data" := PDict {[ "id" := PInt 7 ]} ]} in
  result (get_ofac_party_info 7) (world_of (ok_json 200 (PDict body)))
  = Return (PDict {[ "status" := PStr "success"; "data" := PDict {[ "id" := PInt 7 ]} ]}).
Proof.
  intros body.
  apply (lookup_passes_data (world_of (ok_json 200 (PDict body))) 7
           (mkResponse 200 "" (Return (PDict body))) body).
  - apply world_of_answers_lookup.
  - reflexivity.
  - reflexivity.
  - reflexivity.
  - reflexivity.
Defined.

(** C9: for every integer [party_id], zero and the negatives included,
    [get_ofac_party_info] checks nothing and sends exactly one request,
    whatever the answer: a GET to the configured lookup endpoint (the
    environment's [API_ENDPOINT], else the built-in default) whose only
    parameter is [partyId] with the decimal rendering of [party_id] (the
    text [int] reads back as [party_id]) as its value, with a timeout of 10
    seconds. *)
Theorem lookup_sends_one_get party_id w :
  sent (get_ofac_party_info party_id) w
  = [Request "GET" (API_ENDPOINT w) {[ "partyId" := PStr (str_int party_id) ]} 10%float] ∧
  API_ENDPOINT w = default DEFAULT_BASE (environ w !! "API_ENDPOINT") ∧
  int_of_str (str_int party_id) = Some party_id.
Proof.
  split; [apply lookup_sent|]. split; [reflexivity | apply int_of_str_str_int].
Qed.

(** C10: when a call is answered with a 2xx status and a JSON object whose
    [resultCd] is true and which has no [data] member, the tool still
    returns the success dictionary: with the empty dictionary as data for a
    lookup, with the empty list for a search. *)
Theorem missing_data_defaults w r d :
  is_success (status_code r) = true ->
  json r = Return (PDict d) ->
  d !! "resultCd" = Some (PBool true) ->
  d !! "data" = None ->
  (∀ party_id,
     answers w (get_ofac_party_info party_id) (Return r) ->
     result (get_ofac_party_info party_id) w = Return (success (PDict ∅))) ∧
  (∀ q scope country city limit fuzzy,
     answers w (search_party q scope country city limit fuzzy) (Return r) ->
     result (search_party q scope country city limit fuzzy) w = Return (success (PList []))).
Proof.
  intros Hst Hj Hrc Hdata. split.
  - intros party_id Hans%lookup_answered.
    rewrite (lookup_object w party_id r d) by done. by rewrite Hrc, Hdata.
  - intros q scope country city limit fuzzy (q' & s' & n & Hacc & Hg)%search_answered.
    rewrite (search_object w q scope country city limit fuzzy q' s' n r d) by done.
    by rewrite Hrc, Hdata.
Qed.

Lemma missing_data_defaults_witness :
  let body : gmap string pyval := {[ "resultCd" := PBool true ]} in
  let w := world_of (ok_json 200 (PDict body)) in
  result (get_ofac_party_info 7) w = Return (success (PDict ∅)) ∧
  result (search_party (PStr "ab") default_scope default_country default_city
            default_limit default_fuzzy) w = Return (success (PList [])).
Proof.
  intros body w.
  destruct (missing_data_defaults w (mkResponse 200 "" (Return (PDict body))) body)
    as [Hlookup Hsearch]; try reflexivity.
  split.
  - apply Hlookup. apply world_of_answers_lookup.
  - apply Hsearch. apply world_of_answers_search.
Defined.

(** * Further properties of the tools *)

(** ** The remaining branches of the [try] blocks *)

Lemma lookup_client_raise w party_id e :
  http_get w (lookup_request w party_id) = Raise e ->
  result (get_ofac_party_info party_id) w = Return (error (failure_message e)).
Proof.
  unfold get_ofac_party_info, lookup_request. intros Hg. run_io.
  rewrite Hg. by destruct e.
Qed.

Lemma lookup_undecodable w party_id r str_e :
  http_get w (lookup_request w party_id) = Return r ->
  is_success (status_code r) = true ->
  json r = Raise str_e ->
  result (get_ofac_party_info party_id) w = Return (error (PStr str_e)).
Proof.
  unfold get_ofac_party_info, lookup_request, raise_for_status, call_json.
  intros Hg Hs Hj. run_io. by rewrite Hg, Hs, Hj.
Qed.

Lemma lookup_non_object w party_id r j :
  http_get w (lookup_request w party_id) = Return r ->
  is_success (status_code r) = true ->
  json r = Return j ->
  is_dict j = false ->
  result (get_ofac_party_info party_id) w
  = Return (error (PStr ("'" ++ type_name j ++ "' object has no attribute 'get'"))).
Proof.
  unfold get_ofac_party_info, lookup_request, raise_for_status, call_json.
  intros Hg Hs Hj Hd. run_io. rewrite Hg, Hs, Hj. by destruct j.
Qed.

Section search_party_try.
Context (w : world) (q scope country city limit fuzzy : pyval).
Context (q' scope' : string) (n : Z).
Hypothesis Hacc : accepts q scope limit q' scope' n.

Lemma search_undecodable r str_e :
  http_get w (search_request w q' scope' (clamp n) country city fuzzy) = Return r ->
  is_success (status_code r) = true ->
  json r = Raise str_e ->
  result (search_party q scope country city limit fuzzy) w = Return (error (PStr str_e)).
Proof.
  destruct Hacc as (Hq & Hlen & Hs & Hin & Hn).
  unfold search_party, search_request, search_params, clamp, raise_for_status, call_json.
  intros Hg Hst Hj. run_io.
  rewrite Hq, Hlen, Hs, bool_decide_true, Hn by done. cbn.
  by rewrite Hg, Hst, Hj.
Qed.

Lemma search_non_object r j :
  http_get w (search_request w q' scope' (clamp n) country city fuzzy) = Return r ->
  is_success (status_code r) = true ->
  json r = Return j ->
  is_dict j = false ->
  result (search_party q scope country city limit fuzzy) w
  = Return (error (PStr ("'" ++ type_name j ++ "' object has no attribute 'get'"))).
Proof.
  destruct Hacc as (Hq & Hlen & Hs & Hin & Hn).
  unfold search_party, search_request, search_params, clamp, raise_for_status, call_json.
  intros Hg Hst Hj Hd. run_io.
  rewrite Hq, Hlen, Hs, bool_decide_true, Hn by done. cbn.
  rewrite Hg, Hst, Hj. by destruct j.
Qed.

End search_party_try.

Lemma py_len_sized v :
  py_len v = (if sized v
              then Return (match v with
                           | PStr s => Z.of_nat (String.length s)
                           | PList l => Z.of_nat (length l)
                           | PDict d => Z.of_nat (size d)
                           | _ => 0
                           end)
              else Raise (Exception ("object of type '" ++ type_name v ++ "' has no len()"))).
Proof. by destruct v. Qed.

(** X1: when the client call of either tool raises a transport error, or
    any exception other than a status error, after the request went out,
    the tool returns the error dictionary with the text of the exception
    as message. *)
Theorem client_failure_message w op str_e :
  tool_call op ->
  answers w op (Raise (RequestError str_e)) ∨ answers w op (Raise (Exception str_e)) ->
  result op w = Return (error (PStr str_e)).
Proof.
  intros Hop Hans.
  assert (∃ e, answers w op (Raise e) ∧ failure_message e = PStr str_e)
    as (e & He & Hmsg) by (destruct Hans; eauto).
  rewrite <- Hmsg. destruct Hop as [party_id | q scope country city limit fuzzy].
  - apply lookup_answered in He. by apply lookup_client_raise.
  - apply search_answered in He as (q' & s' & n & Hacc & Hg).
    rewrite (search_client_raise w q scope country city limit fuzzy q' s' n e) by done.
    by destruct e.
Qed.

Lemma client_failure_message_witness :
  result (get_ofac_party_info 7) (world_of refused)
  = Return (error (PStr "All connection attempts failed")) ∧
  result (search_party (PStr "ab") default_scope default_country default_city
            default_limit default_fuzzy) (world_of (Raise (Exception "boom")))
  = Return (error (PStr "boom")).
Proof.
  split.
  - apply (client_failure_message (world_of refused) (get_ofac_party_info 7)).
    + apply call_lookup.
    + left. apply world_of_answers_lookup.
  - apply (client_failure_message (world_of (Raise (Exception "boom")))
             (search_party (PStr "ab") default_scope default_country default_city
                default_limit default_fuzzy)).
    + apply call_search.
    + right. apply world_of_answers_search.
Defined.

(** X2: when the answer has a 2xx status but its body does not decode as
    JSON, either tool returns the error dictionary whose message is the text
    of the decoding exception, not the "API Error" text of the status
    branch. *)
Theorem undecodable_body_message w op r str_e :
  tool_call op ->
  answers w op (Return r) ->
  is_success (status_code r) = true ->
  json r = Raise str_e ->
  result op w = Return (error (PStr str_e)).
Proof.
  intros [party_id | q scope country city limit fuzzy] Hans Hst Hj.
  - apply lookup_answered in Hans. by apply (lookup_undecodable w party_id r).
  - apply search_answered in Hans as (q' & s' & n & Hacc & Hg).
    by apply (search_undecodable w q scope country city limit fuzzy q' s' n Hacc r).
Qed.

Lemma undecodable_body_message_witness :
  result (search_party (PStr "ab") default_scope default_country default_city
            default_limit default_fuzzy) (world_of (not_json 200 "<html>"))
  = Return (error (PStr "Expecting value: line 1 column 1 (char 0)")).
Proof.
  apply (undecodable_body_message (world_of (not_json 200 "<html>")) _
           (mkResponse 200 "<html>" (Raise "Expecting value: line 1 column 1 (char 0)"))).
  - apply call_search.
  - apply world_of_answers_search.
  - reflexivity.
  - reflexivity.
Defined.

(** X3: when the answer has a 2xx status and its body decodes to a JSON
    value that is not an object (a list, a string, a number, a boolean or
    null), either tool returns the error dictionary whose message is
    "'<type>' object has no attribute 'get'", with the Python type name of
    the value. *)
Theorem non_object_body_message w op r j :
  tool_call op ->
  answers w op (Return r) ->
  is_success (status_code r) = true ->
  json r = Return j ->
  is_dict j = false ->
  result op w
  = Return (error (PStr ("'" ++ type_name j ++ "' object has no attribute 'get'"))).
Proof.
  intros [party_id | q scope country city limit fuzzy] Hans Hst Hj Hd.
  - apply lookup_answered in Hans. by apply (lookup_non_object w party_id r).
  - apply search_answered in Hans as (q' & s' & n & Hacc & Hg).
    by apply (search_non_object w q scope country city limit fuzzy q' s' n Hacc r).
Qed.

Lemma non_object_body_message_witness :
  result (get_ofac_party_info 7) (world_of (ok_json 200 (PList [])))
  = Return (error (PStr "'list' object has no attribute 'get'")).
Proof.
  apply (non_object_body_message (world_of (ok_json 200 (PList [])))
           (get_ofac_party_info 7) (mkResponse 200 "" (Return (PList []))) (PList [])).
  - apply call_lookup.
  - apply world_of_answers_lookup.
  - reflexivity.
  - reflexivity.
  - reflexivity.
Defined.

(** X4: when a search is answered with a 2xx status and a JSON object whose
    [resultCd] is true and which has a [data] member, the tool returns
    success with that member unchanged only if it is a list, a string or an
    object; for any other value (null, a number, a boolean) it returns the
    error dictionary with the message "object of type '<type>' has no
    len()", because the hit count is taken before returning. *)
Theorem search_data_must_be_sized w q scope country city limit fuzzy r d data :
  answers w (search_party q scope country city limit fuzzy) (Return r) ->
  is_success (status_code r) = true ->
  json r = Return (PDict d) ->
  d !! "resultCd" = Some (PBool true) ->
  d !! "data" = Some data ->
  result (search_party q scope country city limit fuzzy) w
  = Return (if sized data
            then success data
            else error (PStr ("object of type '" ++ type_name data ++ "' has no len()"))).
Proof.
  intros (q' & s' & n & Hacc & Hg)%search_answered Hst Hj Hrc Hdata.
  rewrite (search_object w q scope country city limit fuzzy q' s' n r d) by done.
  rewrite Hrc, Hdata. cbn. rewrite py_len_sized. by destruct (sized data).
Qed.

Lemma search_data_must_be_sized_witness :
  let hits : gmap string pyval :=
    {[ "resultCd" := PBool true; "data" := PList [PDict {[ "id" := PInt 7 ]}] ]} in
  let null : gmap string pyval := {[ "resultCd" := PBool true; "data" := PNone ]} in
  result (search_party (PStr "ab") default_scope default_country default_city
            default_limit default_fuzzy) (world_of (ok_json 200 (PDict hits)))
  = Return (success (PList [PDict {[ "id" := PInt 7 ]}])) ∧
  result (search_party (PStr "ab") default_scope default_country default_city
            default_limit default_fuzzy) (world_of (ok_json 200 (PDict null)))
  = Return (error (PStr "object of type 'NoneType' has no len()")).
Proof.
  intros hits null. split.
  - apply (search_data_must_be_sized (world_of (ok_json 200 (PDict hits)))
             (PStr "ab") default_scope default_country default_city default_limit
             default_fuzzy (mkResponse 200 "" (Return (PDict hits))) hits
             (PList [PDict {[ "id" := PInt 7 ]}])).
    + apply world_of_answers_search.
    + reflexivity.
    + reflexivity.
    + reflexivity.
    + reflexivity.
  - apply (search_data_must_be_sized (world_of (ok_json 200 (PDict null)))
             (PStr "ab") default_scope default_country default_city default_limit
             default_fuzzy (mkResponse 200 "" (Return (PDict null))) null PNone).
    + apply world_of_answers_search.
    + reflexivity.
    + reflexivity.
    + reflexivity.
    + reflexivity.
Defined.

(** X5: when either tool is answered with a status outside 2xx and the
    body decodes to a JSON object without a [message] member, the message
    of the error dictionary is "API Error: <status>"; when it decodes to a
    JSON value that is not an object, the message is the first 300
    characters of the text "API Error: <status> - <body>", all of that text
    when it has no more than 300, as for a body that does not decode. *)
Theorem http_error_fallbacks w op r :
  tool_call op ->
  answers w op (Return r) ->
  is_success (status_code r) = false ->
  let composite := "API Error: " ++ str_int (status_code r) ++ " - " ++ text r in
  (∀ d, json r = Return (PDict d) -> d !! "message" = None ->
     result op w = Return (error (PStr ("API Error: " ++ str_int (status_code r))))) ∧
  (∀ j, json r = Return j -> is_dict j = false ->
     ∃ msg rest,
       result op w = Return (error (PStr msg)) ∧
       composite = msg ++ rest ∧
       String.length msg = Nat.min 300 (String.length composite) ∧
       ((String.length composite <= 300)%nat -> msg = composite)).
Proof.
  intros Hop Hans Hst composite.
  rewrite (call_http_error w op r) by done. split.
  - intros d Hj Hm. by rewrite (extract_no_message r d).
  - intros j Hj Hd.
    destruct (extract_fallback r) as (msg & rest & -> & Hcut); [right; eauto|].
    by exists msg, rest.
Qed.

Lemma http_error_fallbacks_witness :
  result (get_ofac_party_info 7) (world_of (ok_json 404 (PDict ∅)))
  = Return (error (PStr "API Error: 404")) ∧
  result (get_ofac_party_info 7)
    (world_of (Return (mkResponse 503 "[]" (Return (PList [])))))
  = Return (error (PStr "API Error: 503 - []")) ∧
  ∃ msg rest,
    result (get_ofac_party_info 7)
      (world_of (Return (mkResponse 503 long_body (Return (PInt 0)))))
    = Return (error (PStr msg)) ∧
    "API Error: 503 - " ++ long_body = msg ++ rest ∧
    String.length msg = 300%nat.
Proof.
  split; [|split].
  - destruct (http_error_fallbacks (world_of (ok_json 404 (PDict ∅)))
                (get_ofac_party_info 7) (mkResponse 404 "" (Return (PDict ∅))))
      as [Hplain _].
    + apply call_lookup.
    + apply world_of_answers_lookup.
    + reflexivity.
    + apply (Hplain ∅); reflexivity.
  - destruct (http_error_fallbacks
                (world_of (Return (mkResponse 503 "[]" (Return (PList [])))))
                (get_ofac_party_info 7) (mkResponse 503 "[]" (Return (PList []))))
      as [_ Hcut].
    + apply call_lookup.
    + apply world_of_answers_lookup.
    + reflexivity.
    + destruct (Hcut (PList [])) as (msg & rest & Hres & _ & _ & Hshort);
        [reflexivity | reflexivity |].
      rewrite Hres, Hshort; [reflexivity | vm_compute; lia].
  - destruct (http_error_fallbacks
                (world_of (Return (mkResponse 503 long_body (Return (PInt 0)))))
                (get_ofac_party_info 7) (mkResponse 503 long_body (Return (PInt 0))))
      as [_ Hcut].
    + apply call_lookup.
    + apply world_of_answers_lookup.
    + reflexivity.
    + destruct (Hcut (PInt 0)) as (msg & rest & Hres & Hpre & Hlen & _);
        [reflexivity | reflexivity |].
      exists msg, rest. split; [exact Hres|]. split; [exact Hpre|]. exact Hlen.
Defined.

(** ** Success is only reported when the remote side reported it *)

Lemma Return_inj {E A} (a b : A) : Return (E:=E) a = Return b -> a = b.
Proof. congruence. Qed.

Lemma success_not_error data message : success data ≠ error message.
Proof.
  intros Heq.
  apply (f_equal (λ v, match v with PDict m => m !! "status" | _ => None end)) in Heq.
  vm_compute in Heq. discriminate.
Qed.

Lemma success_inj a b : success a = success b -> a = b.
Proof.
  intros Heq.
  apply (f_equal (λ v, match v with PDict m => m !! "data" | _ => None end)) in Heq.
  vm_compute in Heq. congruence.
Qed.

(** X6: [get_ofac_party_info] returns the success dictionary only when its
    request was answered with a 2xx status and a JSON object whose
    [resultCd] is the boolean true; the data is then that object's [data]
    member, or the empty dictionary when there is none.  In every other
    case, a status outside 2xx with any body included, the result is not a
    success. *)
Theorem lookup_success_inv w party_id data :
  result (get_ofac_party_info party_id) w = Return (success data) ->
  ∃ r d,
    http_get w (lookup_request w party_id) = Return r ∧
    is_success (status_code r) = true ∧
    json r = Return (PDict d) ∧
    d !! "resultCd" = Some (PBool true) ∧
    data = default (PDict ∅) (d !! "data").
Proof.
  intros Hres.
  destruct (http_get w (lookup_request w party_id)) as [r|e] eqn:Hg; cycle 1.
  { rewrite (lookup_client_raise w party_id e) in Hres by done.
    apply Return_inj in Hres. by destruct (success_not_error data (failure_message e)). }
  destruct (is_success (status_code r)) eqn:Hst; cycle 1.
  { rewrite (lookup_http_error w party_id r) in Hres by done.
    apply Return_inj in Hres. by destruct (success_not_error data (_extract_error_message r)). }
  destruct (json r) as [j|str_e] eqn:Hj; cycle 1.
  { rewrite (lookup_undecodable w party_id r str_e) in Hres by done.
    apply Return_inj in Hres. by destruct (success_not_error data (PStr str_e)). }
  destruct (is_dict j) eqn:Hd; cycle 1.
  { rewrite (lookup_non_object w party_id r j) in Hres by done.
    apply Return_inj in Hres. symmetry in Hres. by apply success_not_error in Hres. }
  destruct j as [| | | | | |d]; try discriminate.
  rewrite (lookup_object w party_id r d) in Hres by done.
  destruct (is_True _) eqn:Hrc; apply Return_inj in Hres.
  - exists r, d. repeat split; try done.
    + apply is_True_spec in Hrc. by destruct (d !! "resultCd"); simplify_eq/=.
    + by apply success_inj.
  - symmetry in Hres. by apply success_not_error in Hres.
Qed.

Lemma lookup_success_inv_witness :
  let body : gmap string pyval := {[ "resultCd" := PBool true ]} in
  let w := world_of (ok_json 200 (PDict body)) in
  result (get_ofac_party_info 7) w = Return (success (PDict ∅)) ∧
  ∃ r d,
    http_get w (lookup_request w 7) = Return r ∧
    is_success (status_code r) = true ∧
    json r = Return (PDict d) ∧
    d !! "resultCd" = Some (PBool true) ∧
    PDict ∅ = default (PDict ∅) (d !! "data").
Proof.
  intros body w.
  assert (Hres : result (get_ofac_party_info 7) w = Return (success (PDict ∅)))
    by reflexivity.
  split; [exact Hres|].
  exact (lookup_success_inv w 7 (PDict ∅) Hres).
Defined.

(** ** What the checks of [search_party] do with raw arguments *)

Lemma coercion_raises (method : pyval -> outcome exn_class string) v dflt c :
  (method = py_strip ∨ method = py_lower) ->
  method (py_or v (PStr dflt)) = Raise c ->
  c = AttributeError ∧ truthy v = true ∧ ∀ s, v ≠ PStr s.
Proof.
  intros Hm. unfold py_or. destruct (truthy v) eqn:Ht.
  - destruct Hm as [-> | ->]; destruct v; cbn; intros; by simplify_eq.
  - destruct Hm as [-> | ->]; cbn; intros; by simplify_eq.
Qed.

(** The six ways through the checks. *)
Lemma search_checks w q scope country city limit fuzzy :
  let run := search_party q scope country city limit fuzzy w in
  (∃ c, py_strip (py_or q (PStr "")) = Raise c ∧ run = (Raise c, [])) ∨
  (∃ q', py_strip (py_or q (PStr "")) = Return q' ∧ (String.length q' < 2)%nat ∧
     run = (Return (error (PStr "q must be at least 2 characters")), [])) ∨
  (∃ c, py_lower (py_or scope (PStr "all")) = Raise c ∧ run = (Raise c, [])) ∨
  (∃ scope', py_lower (py_or scope (PStr "all")) = Return scope' ∧
     (scope' ∉ ALLOWED_SCOPES) ∧
     run = (Return (error (PStr ("scope must be one of " ++ join ", " (set_iter w)))), [])) ∨
  (∃ c, py_int (py_or limit (PInt 100)) = Raise c ∧ run = (Raise c, [])) ∨
  (∃ q' scope' n, accepts q scope limit q' scope' n).
Proof.
  intros run. subst run.
  destruct (py_strip (py_or q (PStr ""))) as [q'|c] eqn:Hq; cycle 1.
  { left. exists c. split; [done|]. unfold search_party. run_io. by rewrite Hq. }
  right. destruct (String.length q' <? 2)%nat eqn:Hlen.
  { left. exists q'. split; [done|]. apply Nat.ltb_lt in Hlen. split; [done|].
    by apply (search_short_query w q scope country city limit fuzzy q'). }
  right. destruct (py_lower (py_or scope (PStr "all"))) as [scope'|c] eqn:Hs; cycle 1.
  { left. exists c. split; [done|]. unfold search_party. run_io. by rewrite Hq, Hlen, Hs. }
  right. destruct (decide (scope' ∈ ALLOWED_SCOPES)) as [Hin|Hin]; cycle 1.
  { left. exists scope'. split; [done|]. split; [done|].
    by apply (search_bad_scope w q scope country city limit fuzzy q' scope'). }
  right. destruct (py_int (py_or limit (PInt 100))) as [n|c] eqn:Hn; cycle 1.
  { left. exists c. split; [done|]. unfold search_party. run_io.
    by rewrite Hq, Hlen, Hs, bool_decide_true, Hn by done. }
  right. by exists q', scope', n.
Qed.

(** X7: [search_party] raises only out of one of its three coercions, and
    then it has sent nothing: [AttributeError] when [q], or [scope], is a
    true value that is not a string, or the exception of [int] on
    [limit or 100]. *)
Theorem search_raises_before_sending w q scope country city limit fuzzy c :
  result (search_party q scope country city limit fuzzy) w = Raise c ->
  sent (search_party q scope country city limit fuzzy) w = [] ∧
  ((c = AttributeError ∧ truthy q = true ∧ ∀ s, q ≠ PStr s) ∨
   (c = AttributeError ∧ truthy scope = true ∧ ∀ s, scope ≠ PStr s) ∨
   py_int (py_or limit (PInt 100)) = Raise c).
Proof.
  intros Hres. unfold result, sent in *.
  destruct (search_checks w q scope country city limit fuzzy)
    as [(c' & Hq & Hrun) | [(q' & _ & _ & Hrun) | [(c' & Hs & Hrun)
       | [(s' & _ & _ & Hrun) | [(c' & Hn & Hrun) | (q' & s' & n & Hacc)]]]]].
  - rewrite Hrun in *. cbn in Hres. simplify_eq. split; [done|]. left.
    by apply (coercion_raises py_strip q ""); [left|].
  - rewrite Hrun in Hres. discriminate.
  - rewrite Hrun in *. cbn in Hres. simplify_eq. split; [done|]. right. left.
    by apply (coercion_raises py_lower scope "all"); [right|].
  - rewrite Hrun in Hres. discriminate.
  - rewrite Hrun in *. cbn in Hres. simplify_eq. split; [done|]. by right; right.
  - destruct (search_accepted_outcome w q scope country city limit fuzzy q' s' n Hacc)
      as (v & Hv & _).
    unfold result in Hv. congruence.
Qed.

Lemma search_raises_before_sending_witness :
  let w := world_of refused in
  result (search_party (PInt 5) default_scope default_country default_city
            default_limit default_fuzzy) w = Raise AttributeError ∧
  sent (search_party (PInt 5) default_scope default_country default_city
          default_limit default_fuzzy) w = [] ∧
  ((AttributeError = AttributeError ∧ truthy (PInt 5) = true ∧ ∀ s, PInt 5 ≠ PStr s) ∨
   (AttributeError = AttributeError ∧ truthy default_scope = true ∧
      ∀ s, default_scope ≠ PStr s) ∨
   py_int (py_or default_limit (PInt 100)) = Raise AttributeError).
Proof.
  intros w.
  assert (Hres : result (search_party (PInt 5) default_scope default_country default_city
                           default_limit default_fuzzy) w = Raise AttributeError)
    by reflexivity.
  split; [exact Hres|].
  exact (search_raises_before_sending w _ _ _ _ _ _ AttributeError Hres).
Defined.

(** X8: [search_party] returns the success dictionary only when its
    arguments passed the checks and the request was answered with a 2xx
    status and a JSON object whose [resultCd] is the boolean true; the data
    is then that object's [data] member, or the empty list when there is
    none, and it is a list, a string or an object. *)
Theorem search_success_inv w q scope country city limit fuzzy data :
  result (search_party q scope country city limit fuzzy) w = Return (success data) ->
  ∃ q' scope' n r d,
    accepts q scope limit q' scope' n ∧
    http_get w (search_request w q' scope' (clamp n) country city fuzzy) = Return r ∧
    is_success (status_code r) = true ∧
    json r = Return (PDict d) ∧
    d !! "resultCd" = Some (PBool true) ∧
    data = default (PList []) (d !! "data") ∧
    sized data = true.
Proof.
  intros Hres.
  destruct (search_checks w q scope country city limit fuzzy)
    as [(c' & _ & Hrun) | [(q' & _ & _ & Hrun) | [(c' & _ & Hrun)
       | [(s' & _ & _ & Hrun) | [(c' & _ & Hrun) | (q' & s' & n & Hacc)]]]]];
    try (unfold result in Hres; rewrite Hrun in Hres; cbn in Hres;
         first [discriminate
               | apply Return_inj in Hres; symmetry in Hres;
                 by apply success_not_error in Hres]).
  exists q', s', n.
  destruct (http_get w (search_request w q' s' (clamp n) country city fuzzy))
    as [r|e] eqn:Hg; cycle 1.
  { rewrite (search_client_raise w q scope country city limit fuzzy q' s' n e) in Hres
      by done.
    apply Return_inj in Hres. symmetry in Hres. by apply success_not_error in Hres. }
  destruct (is_success (status_code r)) eqn:Hst; cycle 1.
  { rewrite (search_http_error w q scope country city limit fuzzy q' s' n r) in Hres
      by done.
    apply Return_inj in Hres. symmetry in Hres. by apply success_not_error in Hres. }
  destruct (json r) as [j|str_e] eqn:Hj; cycle 1.
  { rewrite (search_undecodable w q scope country city limit fuzzy q' s' n Hacc r str_e)
      in Hres by done.
    apply Return_inj in Hres. symmetry in Hres. by apply success_not_error in Hres. }
  destruct (is_dict j) eqn:Hd; cycle 1.
  { rewrite (search_non_object w q scope country city limit fuzzy q' s' n Hacc r j)
      in Hres by done.
    apply Return_inj in Hres. symmetry in Hres. by apply success_not_error in Hres. }
  destruct j as [| | | | | |d]; try discriminate.
  rewrite (search_object w q scope country city limit fuzzy q' s' n r d) in Hres by done.
  exists r, d.
  destruct (is_True _) eqn:Hrc; apply Return_inj in Hres; cycle 1.
  { symmetry in Hres. by apply success_not_error in Hres. }
  rewrite py_len_sized in Hres.
  destruct (sized (default (PList []) (d !! "data"))) eqn:Hsz; cycle 1.
  { symmetry in Hres. by apply success_not_error in Hres. }
  apply success_inj in Hres. subst data.
  split; [exact Hacc|]. repeat split; try done.
  apply is_True_spec in Hrc. by destruct (d !! "resultCd"); simplify_eq/=.
Qed.

Lemma search_success_inv_witness :
  let body : gmap string pyval := {[ "resultCd" := PBool true ]} in
  let w := world_of (ok_json 200 (PDict body)) in
  result (search_party (PStr "ab") default_scope default_country default_city
            default_limit default_fuzzy) w = Return (success (PList [])) ∧
  ∃ q' scope' n r d,
    accepts (PStr "ab") default_scope default_limit q' scope' n ∧
    http_get w (search_request w q' scope' (clamp n) default_country default_city
                  default_fuzzy) = Return r ∧
    is_success (status_code r) = true ∧
    json r = Return (PDict d) ∧
    d !! "resultCd" = Some (PBool true) ∧
    PList [] = default (PList []) (d !! "data") ∧
    sized (PList []) = true.
Proof.
  intros body w.
  assert (Hres : result (search_party (PStr "ab") default_scope default_country
                           default_city default_limit default_fuzzy) w
                 = Return (success (PList []))) by reflexivity.
  split; [exact Hres|].
  exact (search_success_inv w _ _ _ _ _ _ (PList []) Hres).
Defined.

(** ** Trimming and lowering are idempotent *)

Lemma lstrip_head s :
  lstrip s = "" ∨ ∃ c rest, lstrip s = String c rest ∧ isspace c = false.
Proof.
  induction s as [|c s IH]; [by left|]. cbn.
  destruct (isspace c) eqn:Hc; [done|]. right. by exists c, s.
Qed.

Lemma rstrip_keeps_head c rest :
  isspace c = false -> ∃ rest', rstrip (String c rest) = String c rest'.
Proof. intros Hc. cbn. rewrite Hc. destruct (rstrip rest); eauto. Qed.

Lemma rstrip_idem s : rstrip (rstrip s) = rstrip s.
Proof.
  induction s as [|c s IH]; [done|]. cbn.
  destruct (rstrip s) as [|d t] eqn:Hr.
  - destruct (isspace c) eqn:Hc; [done|]. cbn. by rewrite Hc.
  - cbn [rstrip] in IH |- *. by rewrite IH.
Qed.

Lemma strip_idem s : strip (strip s) = strip s.
Proof.
  unfold strip.
  assert (lstrip (rstrip (lstrip s)) = rstrip (lstrip s)) as ->; [|apply rstrip_idem].
  destruct (lstrip_head s) as [-> | (c & rest & -> & Hc)]; [done|].
  destruct (rstrip_keeps_head c rest Hc) as [rest' ->]. cbn. by rewrite Hc.
Qed.

Lemma lower_allowed s : s ∈ ALLOWED_SCOPES -> lower s = s.
Proof.
  unfold ALLOWED_SCOPES.
  rewrite !elem_of_union, !elem_of_singleton. intros [[[-> | ->] | ->] | ->]; reflexivity.
Qed.

Lemma accepts_trimmed q scope limit q' scope' n :
  accepts q scope limit q' scope' n -> strip q' = q' ∧ lower scope' = scope'.
Proof.
  intros (Hq & _ & _ & Hin & _). split; [|by apply lower_allowed].
  unfold py_strip in Hq. destruct (py_or q (PStr "")); simplify_eq. apply strip_idem.
Qed.

(** ** The requests of [search_party] *)

Lemma search_sent_cases w q scope country city limit fuzzy :
  (sent (search_party q scope country city limit fuzzy) w = [] ∧
   ∀ q' scope' n, ¬ accepts q scope limit q' scope' n) ∨
  (∃ q' scope' n, accepts q scope limit q' scope' n ∧
     sent (search_party q scope country city limit fuzzy) w
     = [search_request w q' scope' (clamp n) country city fuzzy]).
Proof.
  destruct (search_checks w q scope country city limit fuzzy)
    as [(c & Hq & Hrun) | [(q1 & Hq & Hlen & Hrun) | [(c & Hs & Hrun)
       | [(s1 & Hs & Hin & Hrun) | [(c & Hn & Hrun) | (q' & s' & n & Hacc)]]]]].
  - left. unfold sent. rewrite Hrun. split; [done|].
    intros q' s' n (Hq' & _). congruence.
  - left. unfold sent. rewrite Hrun. split; [done|].
    intros q' s' n (Hq' & Hlen' & _). apply Nat.ltb_ge in Hlen'.
    assert (q' = q1) by congruence. subst. lia.
  - left. unfold sent. rewrite Hrun. split; [done|].
    intros q' s' n (_ & _ & Hs' & _). congruence.
  - left. unfold sent. rewrite Hrun. split; [done|].
    intros q' s' n (_ & _ & Hs' & Hin' & _).
    assert (s' = s1) by congruence. by subst.
  - left. unfold sent. rewrite Hrun. split; [done|].
    intros q' s' n (_ & _ & _ & _ & Hn'). congruence.
  - right. exists q', s', n. split; [done|]. by apply search_sent.
Qed.

(** X9: a call of [search_party] sends at most one request, whatever its
    arguments and whatever comes back.  A request it sends is a GET to
    [SEARCH_ENDPOINT] with a timeout of 10 seconds; its [q] is a text of at
    least 2 characters with no white space left at either end, and its
    [scope] is one of all, name, alias, address in lower case. *)
Theorem search_request_shape w q scope country city limit fuzzy req :
  req ∈ sent (search_party q scope country city limit fuzzy) w ->
  sent (search_party q scope country city limit fuzzy) w = [req] ∧
  method req = "GET" ∧ url req = SEARCH_ENDPOINT w ∧ timeout req = 10%float ∧
  ∃ q' scope',
    params req !! "q" = Some (PStr q') ∧
    strip q' = q' ∧ (2 <= String.length q')%nat ∧
    params req !! "scope" = Some (PStr scope') ∧
    (scope' = "all" ∨ scope' = "name" ∨ scope' = "alias" ∨ scope' = "address").
Proof.
  intros Hreq.
  destruct (search_sent_cases w q scope country city limit fuzzy)
    as [[Hnone _] | (q' & s' & n & Hacc & Hsent)].
  { rewrite Hnone in Hreq. by apply elem_of_nil in Hreq. }
  rewrite Hsent in Hreq |- *. apply list_elem_of_singleton in Hreq. subst req.
  repeat split. exists q', s'.
  destruct (search_params_lookup q' s' (clamp n) country city fuzzy)
    as (Hq & Hs & _).
  destruct (accepts_trimmed _ _ _ _ _ _ Hacc) as [Htrim _].
  destruct Hacc as (_ & Hlen & _ & Hin & _). apply Nat.ltb_ge in Hlen.
  repeat split; try done.
  revert Hin. unfold ALLOWED_SCOPES.
  rewrite !elem_of_union, !elem_of_singleton. tauto.
Qed.

Lemma search_request_shape_witness :
  let w := world_of refused in
  let req := search_request w "ab" "name" 100 default_country default_city default_fuzzy in
  sent (search_party (PStr "  ab ") (PStr "NAME") default_country default_city
          default_limit default_fuzzy) w = [req] ∧
  method req = "GET" ∧ url req = SEARCH_ENDPOINT w ∧ timeout req = 10%float ∧
  ∃ q' scope',
    params req !! "q" = Some (PStr q') ∧
    strip q' = q' ∧ (2 <= String.length q')%nat ∧
    params req !! "scope" = Some (PStr scope') ∧
    (scope' = "all" ∨ scope' = "name" ∨ scope' = "alias" ∨ scope' = "address").
Proof.
  intros w req.
  apply (search_request_shape w (PStr "  ab ") (PStr "NAME") default_country default_city
           default_limit default_fuzzy req).
  assert (Hsent : sent (search_party (PStr "  ab ") (PStr "NAME") default_country
                          default_city default_limit default_fuzzy) w = [req])
    by reflexivity.
  rewrite Hsent. apply list_elem_of_singleton. reflexivity.
Defined.

(** X10: the checks are idempotent.  A call whose arguments pass the checks
    behaves exactly like the call that is given the forwarded values
    instead (the trimmed query, the lowercased scope, the clamped limit):
    the same request is sent and the same result returned. *)
Theorem normalised_call_is_same_call w q scope country city limit fuzzy q' scope' n :
  accepts q scope limit q' scope' n ->
  search_party (PStr q') (PStr scope') country city (PInt (clamp n)) fuzzy w
  = search_party q scope country city limit fuzzy w.
Proof.
  intros Hacc.
  destruct (accepts_trimmed _ _ _ _ _ _ Hacc) as [Htrim Hlow].
  destruct Hacc as (Hq & Hlen & Hs & Hin & Hn).
  assert (Hq2 : py_strip (py_or (PStr q') (PStr "")) = Return q').
  { rewrite or_nonempty by (by destruct q'). cbn. by rewrite Htrim. }
  assert (Hs2 : py_lower (py_or (PStr scope') (PStr "all")) = Return scope').
  { rewrite or_nonempty by (intros ->; revert Hin; decide_by_computing).
    cbn. by rewrite Hlow. }
  assert (Hn2 : py_int (py_or (PInt (clamp n)) (PInt 100)) = Return (clamp n)).
  { unfold py_or. cbn. pose proof (clamp_range n).
    by destruct (Z.eqb_spec (clamp n) 0); [lia|]. }
  assert (Hcl : Z.max 1 (Z.min (clamp n) 1000) = Z.max 1 (Z.min n 1000)).
  { unfold clamp. lia. }
  unfold search_party. run_io.
  rewrite Hq, Hq2, Hlen, Hs, Hs2, bool_decide_true, Hn, Hn2 by done. cbn.
  by rewrite Hcl.
Qed.

Lemma normalised_call_is_same_call_witness :
  let w := world_of (ok_json 200 (PDict {[ "resultCd" := PBool true ]})) in
  accepts (PStr "  ab ") (PStr "NAME") (PInt 5000) "ab" "name" 5000 ∧
  search_party (PStr "ab") (PStr "name") default_country default_city
    (PInt (clamp 5000)) default_fuzzy w
  = search_party (PStr "  ab ") (PStr "NAME") default_country default_city
      (PInt 5000) default_fuzzy w.
Proof.
  intros w.
  assert (Hacc : accepts (PStr "  ab ") (PStr "NAME") (PInt 5000) "ab" "name" 5000).
  { split; [reflexivity|]. split; [reflexivity|]. split; [reflexivity|].
    split; [decide_by_computing | reflexivity]. }
  split; [exact Hacc|].
  exact (normalised_call_is_same_call w _ _ default_country default_city _
           default_fuzzy _ _ _ Hacc).
Defined.

(** ** The endpoints are separate settings *)

Lemma search_url w q scope country city limit fuzzy :
  url <$> sent (search_party q scope country city limit fuzzy) w = [] ∨
  url <$> sent (search_party q scope country city limit fuzzy) w = [SEARCH_ENDPOINT w].
Proof.
  destruct (search_sent_cases w q scope country city limit fuzzy)
    as [[-> _] | (q' & s' & n & _ & ->)]; [by left | by right].
Qed.

Lemma search_sent_same_checks w1 w2 q scope country city limit fuzzy :
  length (sent (search_party q scope country city limit fuzzy) w1)
  = length (sent (search_party q scope country city limit fuzzy) w2).
Proof.
  destruct (search_sent_cases w1 q scope country city limit fuzzy)
    as [[-> Hno] | (q' & s' & n & Hacc & ->)];
    destruct (search_sent_cases w2 q scope country city limit fuzzy)
    as [[-> Hno2] | (q2 & s2 & n2 & Hacc2 & ->)]; try done.
  - by destruct (Hno q2 s2 n2).
  - by destruct (Hno2 q' s' n).
Qed.

(** X11: each endpoint is read from its own environment variable, and the
    defaults are built from the built-in base, not from [API_ENDPOINT].
    With [API_ENDPOINT] set, a lookup goes to that URL while a search goes
    where it went before, and the SSE endpoint is what it was; with neither
    [API_ENDPOINT] nor [SEARCH_ENDPOINT] set, the search URL is the lookup
    URL followed by "/search". *)
Theorem endpoint_settings w u :
  (∀ party_id,
     url <$> sent (get_ofac_party_info party_id) (set_env "API_ENDPOINT" u w) = [u]) ∧
  (∀ q scope country city limit fuzzy,
     url <$> sent (search_party q scope country city limit fuzzy)
               (set_env "API_ENDPOINT" u w)
     = url <$> sent (search_party q scope country city limit fuzzy) w) ∧
  SSE_ENDPOINT (set_env "API_ENDPOINT" u w) = SSE_ENDPOINT w ∧
  (∀ party_id q scope country city limit fuzzy req,
     environ w !! "API_ENDPOINT" = None ->
     environ w !! "SEARCH_ENDPOINT" = None ->
     req ∈ sent (search_party q scope country city limit fuzzy) w ->
     [url req] = (λ r, url r ++ "/search")
                   <$> sent (get_ofac_party_info party_id) w).
Proof.
  split; [|split; [|split]].
  - intros party_id. rewrite lookup_sent. cbn.
    unfold API_ENDPOINT, getenv. cbn. by rewrite lookup_insert_eq.
  - intros q scope country city limit fuzzy.
    assert (SEARCH_ENDPOINT (set_env "API_ENDPOINT" u w) = SEARCH_ENDPOINT w) as Hsame.
    { unfold SEARCH_ENDPOINT, getenv. cbn. by rewrite lookup_insert_ne. }
    pose proof (search_sent_same_checks (set_env "API_ENDPOINT" u w) w
                  q scope country city limit fuzzy) as Hlen.
    destruct (search_url (set_env "API_ENDPOINT" u w) q scope country city limit fuzzy)
      as [H1 | H1];
      destruct (search_url w q scope country city limit fuzzy) as [H2 | H2];
      rewrite H1, H2, ?Hsame; try done;
      apply (f_equal length) in H1, H2; rewrite length_fmap in H1, H2;
      rewrite H1 in Hlen; rewrite H2 in Hlen; discriminate.
  - unfold SSE_ENDPOINT, getenv. cbn. by rewrite lookup_insert_ne.
  - intros party_id q scope country city limit fuzzy req Ha Hs Hreq.
    destruct (search_sent_cases w q scope country city limit fuzzy)
      as [[Hnone _] | (q' & s' & n & _ & Hsent)]; rewrite ?Hnone, ?Hsent in Hreq.
    { by apply elem_of_nil in Hreq. }
    apply list_elem_of_singleton in Hreq. subst req.
    rewrite lookup_sent. cbn.
    unfold SEARCH_ENDPOINT, API_ENDPOINT, getenv. by rewrite Ha, Hs.
Qed.

Lemma endpoint_settings_witness :
  let w := world_of refused in
  let u := "http://localhost:5000/ofacParty" in
  url <$> sent (get_ofac_party_info 7) (set_env "API_ENDPOINT" u w) = [u] ∧
  url <$> sent (search_party (PStr "ab") default_scope default_country default_city
                  default_limit default_fuzzy) (set_env "API_ENDPOINT" u w)
  = ["https://hello-render-rbg8.onrender.com/ofacParty/search"].
Proof.
  intros w u.
  destruct (endpoint_settings w u) as (Hlookup & Hsearch & _ & _).
  split; [apply Hlookup|].
  rewrite Hsearch. reflexivity.
Defined.
